(** * PyPMM: plate-boundary reader, interior sampler and quiver corrector

    A shallow embedding of [src/plot_utils.py] (with the plate tables of
    [src/models.py]) and the properties established about it.

    - Python [str] values are [string]s whose characters are read as code
      points below 256; [dict]s are [gmap]s, except the plate-model tables,
      whose iteration order is observable and which are association lists.
    - Exceptions are the values of [exn]; a computation that may raise
      returns a [result].
    - NumPy [float64] values are [PrimFloat.float]s. The conversion of a
      token to a float ([ndarray.astype(float)]), shapely's polygon
      constructor and its containment test are library code: the functions
      below take them as parameters. *)

From Stdlib Require Import String Ascii List ZArith QArith Bool Lia.
From Stdlib Require Import Floats Uint63.
From stdpp Require Import gmap strings list fin_maps.

Local Open Scope string_scope.
Local Open Scope list_scope.

(** ** Exceptions *)

Inductive exn : Type :=
| KeyError (key : string)
| ValueError (msg : string)
| AttributeError (msg : string)
| IndexError (msg : string).

(** [LookupError] is the base class of [KeyError] and [IndexError]. *)
Definition is_LookupError (e : exn) : bool :=
  match e with
  | KeyError _ | IndexError _ => true
  | ValueError _ | AttributeError _ => false
  end.

Inductive result (A : Type) : Type :=
| Ok (a : A)
| Raise (e : exn).
Arguments Ok {A} a.
Arguments Raise {A} e.

Definition bind {A B : Type} (r : result A) (k : A -> result B) : result B :=
  match r with
  | Ok a => k a
  | Raise e => Raise e
  end.

#[global] Instance result_ret : MRet result := @Ok.
#[global] Instance result_bind : MBind result := fun A B k r => bind r k.

(** A [for] loop whose body may raise. *)
Fixpoint for_each {A S : Type} (f : S -> A -> result S) (l : list A) (s : S)
  : result S :=
  match l with
  | [] => Ok s
  | a :: l' => s' ← f s a; for_each f l' s'
  end.

(** Element-wise conversion that raises at the first failing element. *)
Fixpoint convert_all {A B : Type} (f : A -> result B) (l : list A)
  : result (list B) :=
  match l with
  | [] => Ok []
  | a :: l' => b ← f a; bs ← convert_all f l'; Ok (b :: bs)
  end.

(** ** Python string operations *)

Module Str.

Definition nl : string := String "010"%char EmptyString.

(** [str.isspace] on one character (code points below 256). *)
Definition isspace (c : ascii) : bool :=
  let n := nat_of_ascii c in
  ((9 <=? n)%nat && (n <=? 13)%nat) || ((28 <=? n)%nat && (n <=? 32)%nat)
  || (n =? 133)%nat || (n =? 160)%nat.

(** [s.split()]: the maximal runs of non-whitespace characters. *)
Fixpoint split (s : string) : list string :=
  match s with
  | EmptyString => []
  | String c s' =>
      if isspace c then split s'
      else
        let ws := split s' in
        match s' with
        | EmptyString => String c EmptyString :: ws
        | String c' _ =>
            if isspace c' then String c EmptyString :: ws
            else match ws with
                 | w :: ws' => String c w :: ws'
                 | [] => [String c EmptyString]
                 end
        end
  end.

Definition startswith (s p : string) : bool := String.prefix p s.

Definition endswith (s p : string) : bool :=
  (String.length p <=? String.length s)%nat
  && String.eqb (substring (String.length s - String.length p) (String.length p) s) p.

(** [s.split(sep)] for a non-empty separator: [skip] counts the characters
    of a separator occurrence still to be dropped. *)
Fixpoint split_on_from (sep s : string) (skip : nat) : list string :=
  match s with
  | EmptyString => [EmptyString]
  | String c s' =>
      match skip with
      | S k => split_on_from sep s' k
      | O =>
          if String.prefix sep s
          then EmptyString :: split_on_from sep s' (String.length sep - 1)
          else match split_on_from sep s' 0 with
               | w :: ws => String c w :: ws
               | [] => [String c EmptyString]
               end
      end
  end.

Definition split_on (sep s : string) : list string := split_on_from sep s 0.

(** [sub in s]. *)
Fixpoint contains (s sub : string) : bool :=
  String.prefix sub s
  || match s with
     | EmptyString => false
     | String _ s' => contains s' sub
     end.

Definition upper_char (c : ascii) : ascii :=
  let n := nat_of_ascii c in
  if ((97 <=? n)%nat && (n <=? 122)%nat) then ascii_of_nat (n - 32) else c.

(** [s.upper()] on ASCII text. *)
Fixpoint upper (s : string) : string :=
  match s with
  | EmptyString => EmptyString
  | String c s' => String (upper_char c) (upper s')
  end.

(** [os.path.basename]. *)
Fixpoint basename (p : string) : string :=
  match p with
  | EmptyString => EmptyString
  | String c p' =>
      if String.prefix "/" p then basename p'
      else if contains p' "/" then basename p' else p
  end.

(** Truthiness of a [str]. *)
Definition truthy (s : string) : bool := negb (String.eqb s EmptyString).

End Str.


(** ** Plate tables ([models.py]) *)

(** [Tag = namedtuple('Tag', 'Abbrev Lat Lon omega')]; the numeric fields
    hold the decimal literals of the tables. *)
Record Tag : Type := mkTag { Abbrev : string; Lat : Q; Lon : Q; omega : Q }.

(** [os.path.abspath] of a path written [./tail], in working directory [cwd]. *)
Definition abspath_dot (cwd tail : string) : string :=
  (if String.eqb cwd "/" then EmptyString else cwd) +:+ "/" +:+ tail.

Definition PLATE_BOUNDARY_FILE (cwd : string) : list (string * string) :=
  [ ("GSRM", abspath_dot cwd "plate_boundary/GSRM/plate_outlines.lola");
    ("MORVEL", abspath_dot cwd "plate_boundary/MORVEL/plate_outlines.lalo") ].

Definition GSRM_V21_PMM : list (string * Tag) :=
  [ ("Africa", mkTag "AF" 49.66 (-78.08) 0.285);
    ("Amur", mkTag "AM" 61.64 (-101.29) 0.287);
    ("Antarctica", mkTag "AN" 60.08 (-120.14) 0.234);
    ("Arabia", mkTag "AR" 51.12 (-19.87) 0.484);
    ("AegeanSea", mkTag "AS" 47.78 59.86 0.253);
    ("Australia", mkTag "AU" 33.31 36.38 0.639);
    ("BajaCalifornia", mkTag "BC" (-63.04) 104.02 0.640);
    ("Bering", mkTag "BG" (-40.62) (-53.84) 0.333);
    ("Burma", mkTag "BU" (-4.38) (-76.17) 2.343);
    ("Caribbean", mkTag "CA" 37.84 (-96.49) 0.290);
    ("Caroline", mkTag "CL" (-76.41) 30.22 0.552);
    ("Cocos", mkTag "CO" 27.21 (-124.02) 1.169);
    ("Capricorn", mkTag "CP" 42.13 24.28 0.622);
    ("Danakil", mkTag "DA" 21.80 36.05 2.497);
    ("Easter", mkTag "EA" 25.14 67.55 11.331);
    ("Eurasia", mkTag "EU" 55.38 (-95.41) 0.271);
    ("Galapagos", mkTag "GP" 2.83 81.26 5.473);
    ("Gonave", mkTag "GV" 23.89 (-84.86) 0.476);
    ("India", mkTag "IN" 50.95 (-8.00) 0.524);
    ("JuandeFuca", mkTag "JF" (-37.71) 59.44 0.977);
    ("JuanFernandez", mkTag "JZ" 34.33 70.76 22.370);
    ("Lwandle", mkTag "LW" 52.20 (-60.68) 0.273);
    ("Mariana", mkTag "MA" 11.20 142.82 2.165);
    ("NorthAmerica", mkTag "NA" 2.19 (-83.75) 0.219);
    ("NorthBismarck", mkTag "NB" (-30.20) 135.30 1.201);
    ("Niuafo`ou", mkTag "NI" (-3.51) (-174.04) 3.296);
    ("Nazca", mkTag "NZ" 49.05 (-102.13) 0.611);
    ("Okhotsk", mkTag "OK" 28.80 (-90.91) 0.209);
    ("Okinawa", mkTag "ON" 39.11 145.94 1.361);
    ("Pacific", mkTag "PA" (-63.09) 109.63 0.663);
    ("Panama", mkTag "PM" 16.55 (-84.30) 1.392);
    ("PuertoRico", mkTag "PR" 27.81 (-81.51) 0.502);
    ("PhilippineSea", mkTag "PS" (-46.62) (-28.39) 0.895);
    ("Rivera", mkTag "RI" 20.27 (-107.10) 4.510);
    ("Rovuma", mkTag "RO" 51.72 (-69.88) 0.270);
    ("SouthAmerica", mkTag "SA" (-14.10) (-117.86) 0.123);
    ("SouthBismarck", mkTag "SB" 6.91 (-32.41) 6.665);
    ("Scotia", mkTag "SC" 23.02 (-98.78) 0.122);
    ("Sinai", mkTag "SI" 53.34 (-7.27) 0.476);
    ("Sakishima", mkTag "SK" 27.31 128.68 7.145);
    ("Shetland", mkTag "SL" 66.05 134.03 1.710);
    ("Somalia", mkTag "SO" 47.59 (-94.36) 0.346);
    ("SolomonSea", mkTag "SS" (-3.33) 130.60 1.672);
    ("Satunam", mkTag "ST" 36.68 135.30 2.846);
    ("Sunda", mkTag "SU" 51.11 (-91.75) 0.350);
    ("Sandwich", mkTag "SW" (-30.11) (-35.58) 1.369);
    ("Tonga", mkTag "TO" 26.38 4.27 8.853);
    ("Victoria", mkTag "VI" 44.96 (-102.19) 0.330);
    ("Woodlark", mkTag "WL" (-1.62) 130.63 1.957);
    ("Yangtze", mkTag "YA" 64.76 (-109.19) 0.335) ].

Definition NNR_MORVEL56_PMM : list (string * Tag) :=
  [ ("Amur", mkTag "AM" 63.17 (-122.82) 0.297);
    ("Antarctica", mkTag "AN" 65.42 (-118.11) 0.250);
    ("Arabia", mkTag "AR" 48.88 (-8.49) 0.559);
    ("Australia", mkTag "AU" 33.86 37.94 0.632);
    ("Capricorn", mkTag "CP" 44.44 23.09 0.608);
    ("Caribbean", mkTag "CA" 35.20 (-92.62) 0.286);
    ("Cocos", mkTag "CO" 26.93 (-124.31) 1.198);
    ("Eurasia", mkTag "EU" 48.85 (-106.50) 0.223);
    ("India", mkTag "IN" 50.37 (-3.29) 0.544);
    ("JuandeFuca", mkTag "JF" (-38.31) 60.04 0.951);
    ("Lwandle", mkTag "LW" 51.89 (-69.52) 0.286);
    ("Macquarie", mkTag "MQ" 49.19 11.05 1.144);
    ("Nazca", mkTag "NZ" 46.23 (-101.06) 0.696);
    ("NorthAmerica", mkTag "NA" (-4.85) (-80.64) 0.209);
    ("Nubia", mkTag "NU" 47.68 (-68.44) 0.292);
    ("Pacific", mkTag "PA" (-63.58) 114.70 0.651);
    ("PhilippineSea", mkTag "PS" (-46.02) (-31.36) 0.910);
    ("Rivera", mkTag "RI" 20.25 (-107.29) 4.536);
    ("Sandwich", mkTag "SW" (-29.94) (-36.87) 1.362);
    ("Scotia", mkTag "SC" 22.52 (-106.15) 0.146);
    ("Somalia", mkTag "SM" 49.95 (-84.52) 0.339);
    ("SouthAmerica", mkTag "SA" (-22.62) (-112.83) 0.109);
    ("Sunda", mkTag "SU" 50.06 (-95.02) 0.337);
    ("Sur", mkTag "SR" (-32.50) (-111.32) 0.107);
    ("Yangtze", mkTag "YZ" 63.03 (-116.62) 0.334);
    ("AegeanSea", mkTag "AS" 19.43 122.87 0.124);
    ("Altiplano", mkTag "AP" (-6.58) (-83.98) 0.488);
    ("Anatolia", mkTag "AT" 40.11 26.66 1.210);
    ("BalmoralReef", mkTag "BR" (-63.74) 142.06 0.490);
    ("BandaSea", mkTag "BS" (-1.49) 121.64 2.475);
    ("BirdsHead", mkTag "BH" (-40.00) 100.50 0.799);
    ("Burma", mkTag "BU" (-6.13) (-78.10) 2.229);
    ("Caroline", mkTag "CL" (-72.78) 72.05 0.607);
    ("ConwayReef", mkTag "CR" (-20.40) 170.53 3.923);
    ("Easter", mkTag "EA" 24.97 67.53 11.334);
    ("Futuna", mkTag "FT" (-16.33) 178.07 5.101);
    ("Galapagos", mkTag "GP" 2.53 81.18 5.487);
    ("JuanFernandez", mkTag "JZ" 34.25 70.74 22.368);
    ("Kermadec", mkTag "KE" 39.99 6.46 2.347);
    ("Manus", mkTag "MN" (-3.67) 150.27 51.569);
    ("Maoke", mkTag "MO" 14.25 92.67 0.774);
    ("Mariana", mkTag "MA" 11.05 137.84 1.306);
    ("MoluccaSea", mkTag "MS" 2.15 (-56.09) 3.566);
    ("NewHebrides", mkTag "NH" 0.57 (-6.60) 2.469);
    ("Niuafo`ou", mkTag "NI" (-3.29) (-174.49) 3.314);
    ("NorthAndes", mkTag "ND" 17.73 (-122.68) 0.116);
    ("NorthBismarck", mkTag "NB" (-45.04) 127.64 0.856);
    ("Okhotsk", mkTag "OK" 30.30 (-92.28) 0.229);
    ("Okinawa", mkTag "ON" 36.12 137.92 2.539);
    ("Panama", mkTag "PM" 31.35 (-113.90) 0.317);
    ("Shetland", mkTag "SL" 50.71 (-143.47) 0.268);
    ("SolomonSea", mkTag "SS" (-2.87) 130.62 1.703);
    ("SouthBismarck", mkTag "SB" 6.88 (-31.89) 8.111);
    ("Timor", mkTag "TI" (-4.44) 113.50 1.864);
    ("Tonga", mkTag "TO" 25.87 4.48 8.942);
    ("Woodlark", mkTag "WL" 0.10 128.52 1.744) ].

(** [d[k]] on a table kept as its list of items. *)
Fixpoint dict_get {V : Type} (d : list (string * V)) (k : string) : result V :=
  match d with
  | [] => Raise (KeyError k)
  | (k', v) :: d' => if String.eqb k' k then Ok v else dict_get d' k
  end.

(** [m[k]] on a [dict] kept as a finite map. *)
Definition map_get {V : Type} (m : gmap string V) (k : string) : result V :=
  match m !! k with
  | Some v => Ok v
  | None => Raise (KeyError k)
  end.

(** [repr(s)] of a [str] (code points below 256): between single quotes,
    or between double quotes when [s] holds a single quote and no double
    quote; the enclosing quote and the backslash are escaped, and so are
    the characters that are not printable. *)
Definition hex_digit (n : nat) : ascii :=
  nth n (list_ascii_of_string "0123456789abcdef") "0"%char.

Definition repr_char (quote c : ascii) : string :=
  let n := nat_of_ascii c in
  if Ascii.eqb c quote || Ascii.eqb c "\"%char then String "\" (String c EmptyString)
  else if (n =? 9)%nat then "\t"
  else if (n =? 10)%nat then "\n"
  else if (n =? 13)%nat then "\r"
  else if (n <? 32)%nat || (n =? 127)%nat || ((128 <=? n)%nat && (n <=? 160)%nat)
          || (n =? 173)%nat
  then String "\" (String "x" (String (hex_digit (n / 16)) (String (hex_digit (n mod 16))
                                                              EmptyString)))
  else String c EmptyString.

Definition has_char (c : ascii) (s : string) : bool :=
  existsb (Ascii.eqb c) (list_ascii_of_string s).

Definition py_repr (s : string) : string :=
  let dquote := ascii_of_nat 34 in
  let quote :=
    if has_char "'"%char s && negb (has_char dquote s) then dquote else "'"%char in
  String quote
    (String.concat EmptyString (map (repr_char quote) (list_ascii_of_string s))
     +:+ String quote EmptyString).

(** [str(e)]: the message of the exception; for a [KeyError] the [repr] of
    the key. *)
Definition exn_str (e : exn) : string :=
  match e with
  | KeyError k => py_repr k
  | ValueError m | AttributeError m | IndexError m => m
  end.

(** ** [read_plate_outline] *)

Inductive coord_order : Type := lalo | lola.

(** Lines 44-46: the table from abbreviation to plate name. *)
Definition plate_abbrev2name (pmm_dict : list (string * Tag)) : gmap string string :=
  foldl (fun m kv => <[Str.upper (Abbrev kv.2) := kv.1]> m) ∅ pmm_dict.

Definition is_header (line : string) : bool :=
  Str.startswith line "> " || Str.startswith line "# "
  || (length (Str.split line) =? 1)%nat.

Definition index {A : Type} (l : list A) (i : nat) : result A :=
  match l !! i with
  | Some a => Ok a
  | None => Raise (IndexError "list index out of range")
  end.

(** Lines 62-70: the abbreviation named by a header line. *)
Definition header_key (line : string) : result string :=
  k ← (if Str.startswith line "> " then index (Str.split_on "> " line) 1
       else if Str.startswith line "# " then index (Str.split_on "# " line) 1
       else Ok line);
  if Str.endswith k Str.nl then index (Str.split_on Str.nl k) 0 else Ok k.

Section Reader.
Context {F : Type}.

(** [astype(float)] on one token; [None] when NumPy rejects the token. *)
Variable astype_float : string -> option F.

Definition to_float (tok : string) : result F :=
  match astype_float tok with
  | Some x => Ok x
  | None => Raise (ValueError ("could not convert string to float: '" +:+ tok +:+ "'"))
  end.

(** [np.array(rows)] on a list of 1-D arrays: a 2-D array when the rows
    have one length, [ValueError] otherwise (NumPy 1.24 and later). *)
Definition np_array (rows : list (list F)) : result (list (list F)) :=
  match rows with
  | [] => Ok []
  | r :: rs =>
      if forallb (fun r' => (length r' =? length r)%nat) rs then Ok rows
      else Raise (ValueError "setting an array element with a sequence. The requested array has an inhomogeneous shape")
  end.

Record state : Type := mkState {
  key : option string;
  vertices : option (list (list F));
  outlines : gmap string (list (list F))
}.

Definition init : state := mkState None None ∅.

Variable order : coord_order.
Variable abbrev2name : gmap string string.

(** Lines 58-60: [if key and vertices: ...]. *)
Definition commit (st : state) : result (gmap string (list (list F))) :=
  match key st, vertices st with
  | Some k, Some (v :: vs) =>
      if Str.truthy k then
        pname ← map_get abbrev2name k;
        arr ← np_array (v :: vs);
        Ok (<[pname := arr]> (outlines st))
      else Ok (outlines st)
  | _, _ => Ok (outlines st)
  end.

(** Lines 76-78: the vertex of a data line. *)
Definition vertex (line : string) : result (list F) :=
  vert ← convert_all to_float (Str.split line);
  Ok (match order with lola => rev vert | lalo => vert end).

(** Lines 54-79: the body of the loop over the lines. *)
Definition step (st : state) (line : string) : result state :=
  if is_header line then
    outs ← commit st;
    k ← header_key line;
    Ok (mkState (Some k) (Some []) outs)
  else
    vert ← vertex line;
    match vertices st with
    | Some vs => Ok (mkState (key st) (Some (vs ++ [vert])) (outlines st))
    | None => Raise (AttributeError "'NoneType' object has no attribute 'append'")
    end.

(** Lines 49-79: the dictionary left in [outlines] after the loop. *)
Definition read_lines (lines : list string) : result (gmap string (list (list F))) :=
  st ← for_each step lines init;
  Ok (outlines st).

End Reader.

Arguments state F : clear implicits.

(** What [read_plate_outline] returns: the dictionary of all outlines, or
    the polygon object of one plate. *)
Inductive outline (F P : Type) : Type :=
| Outlines (m : gmap string (list (list F)))
| Polygon (poly : P).
Arguments Outlines {F P} m.
Arguments Polygon {F P} poly.

Section ReadPlateOutline.
Context {F P : Type}.
Variable astype_float : string -> option F.

(** [geometry.Polygon] on a vertex array: the polygon object, or the
    exception that shapely raises for an array that is not a ring. *)
Variable geometry_Polygon : list (list F) -> result P.

(** The working directory and the text files, as [readlines] gives them. *)
Variable cwd : string.
Variable readlines : string -> result (list string).

(** Lines 24-35. *)
Definition select_model (pmm_name : string)
  : result (string * list (string * Tag)) :=
  if Str.contains pmm_name "GSRM" then Ok ("GSRM", GSRM_V21_PMM)
  else if Str.contains pmm_name "MORVEL" then Ok ("MORVEL", NNR_MORVEL56_PMM)
  else Raise (ValueError ("Un-recognized plate motion model: " +:+ pmm_name +:+ "!"
                          +:+ Str.nl +:+ "Available models: GSRM, MORVEL.")).

(** Lines 39-41. *)
Definition order_of_file (plate_boundary_file : string) : result coord_order :=
  match List.last (Str.split_on "." (Str.basename plate_boundary_file)) EmptyString with
  | "lalo" => Ok lalo
  | "lola" => Ok lola
  | ext => Raise (ValueError ("Can NOT recognize the lat/lon order from the file extension: ."
                              +:+ ext +:+ "!"))
  end.

(** Lines 82-89: the outline of one plate. *)
Definition select_plate (pmm_dict : list (string * Tag))
    (abbrev2name : gmap string string) (plate_boundary_file : string)
    (outs : gmap string (list (list F))) (plate_name : string)
  : result (outline F P) :=
  if bool_decide (plate_name ∈ (map_to_list abbrev2name).*2) then
    shell ← map_get outs plate_name;
    poly ← geometry_Polygon shell;
    Ok (Polygon poly)
  else
    tag ← dict_get pmm_dict plate_name;
    Raise (ValueError ("Can NOT found plate " +:+ plate_name +:+ " (" +:+ Abbrev tag
                       +:+ ") in file: " +:+ plate_boundary_file +:+ "!")).

Definition read_plate_outline (pmm_name : string) (plate_name : option string)
  : result (outline F P) :=
  '(name, pmm_dict) ← select_model pmm_name;
  plate_boundary_file ← dict_get (PLATE_BOUNDARY_FILE cwd) name;
  order ← order_of_file plate_boundary_file;
  let abbrev2name := plate_abbrev2name pmm_dict in
  lines ← readlines plate_boundary_file;
  outs ← read_lines astype_float order abbrev2name lines;
  match plate_name with
  | Some p =>
      if Str.truthy p
      then select_plate pmm_dict abbrev2name plate_boundary_file outs p
      else Ok (Outlines outs)
  | None => Ok (Outlines outs)
  end.

End ReadPlateOutline.

(** ** A decimal reader for the examples

    [decimal_float] converts the plain decimal literals found in boundary
    files (an optional sign, digits, an optional fraction; at most 15
    digits) and rejects every other token. On these literals the quotient
    of two exactly represented integers is the correctly rounded value, as
    NumPy's conversion returns it. *)

Definition digit_of (c : ascii) : option Z :=
  let n := nat_of_ascii c in
  if ((48 <=? n)%nat && (n <=? 57)%nat) then Some (Z.of_nat (n - 48)) else None.

(** Digits of [s] read with value [acc] so far; [frac] is [Some k] once the
    point has been passed, with [k] digits after it. Returns the integer
    spelled by the digits, the number of digits and of fraction digits. *)
Fixpoint scan_decimal (s : string) (acc : Z) (ndig : nat) (frac : option nat)
  : option (Z * nat * nat) :=
  match s with
  | EmptyString => if (ndig =? 0)%nat then None else Some (acc, ndig, default 0%nat frac)
  | String c s' =>
      match digit_of c with
      | Some d => scan_decimal s' (10 * acc + d)%Z (S ndig) (S <$> frac)
      | None =>
          if Ascii.eqb c "."%char
          then match frac with
               | None => scan_decimal s' acc ndig (Some 0%nat)
               | Some _ => None
               end
          else None
      end
  end.

Definition unsigned_decimal (s : string) : option float :=
  match scan_decimal s 0%Z 0%nat None with
  | Some (n, ndig, k) =>
      if (ndig <=? 15)%nat
      then Some (PrimFloat.div (PrimFloat.of_uint63 (Uint63.of_Z n))
                               (PrimFloat.of_uint63 (Uint63.of_Z (10 ^ Z.of_nat k))))
      else None
  | None => None
  end.

Definition decimal_float (tok : string) : option float :=
  match tok with
  | String "-"%char s => PrimFloat.opp <$> unsigned_decimal s
  | String "+"%char s => unsigned_decimal s
  | _ => unsigned_decimal tok
  end.

(** The example catalog of one plate. *)
Definition arabia_only : list (string * Tag) := [("Arabia", mkTag "AR" 51.12 (-19.87) 0.484)].

Definition ln (s : string) : string := s +:+ Str.nl.


(** ** NumPy helpers on [float64] *)

Module Np.

Definition fmin (a b : float) : float :=
  if PrimFloat.is_nan a then a
  else if PrimFloat.is_nan b then b
  else if PrimFloat.ltb b a then b else a.

Definition fmax (a b : float) : float :=
  if PrimFloat.is_nan a then a
  else if PrimFloat.is_nan b then b
  else if PrimFloat.ltb a b then b else a.

(** [np.min] and [np.max]: a NaN propagates; an empty array raises. *)
Definition min (l : list float) : result float :=
  match l with
  | [] => Raise (ValueError "zero-size array to reduction operation minimum which has no identity")
  | x :: l' => Ok (foldl fmin x l')
  end.

Definition max (l : list float) : result float :=
  match l with
  | [] => Raise (ValueError "zero-size array to reduction operation maximum which has no identity")
  | x :: l' => Ok (foldl fmax x l')
  end.

Definition of_nat (n : nat) : float := PrimFloat.of_uint63 (Uint63.of_Z (Z.of_nat n)).

(** [np.linspace(start, stop, num)] with the end point included, for a
    count [num] that is not negative (NumPy raises [ValueError] on a
    negative one): [num] samples [i * step + start], the last one set to
    [stop]. *)
Definition linspace (start stop : float) (num : nat) : list float :=
  let div := (num - 1)%nat in
  let delta := PrimFloat.sub stop start in
  let y := of_nat <$> seq 0 num in
  let y :=
    if (0 <? div)%nat then
      let step := PrimFloat.div delta (of_nat div) in
      if PrimFloat.eqb step 0%float
      then (fun i => PrimFloat.mul (PrimFloat.div i (of_nat div)) delta) <$> y
      else (fun i => PrimFloat.mul i step) <$> y
    else (fun i => PrimFloat.mul i delta) <$> y in
  let y := (fun v => PrimFloat.add v start) <$> y in
  if (1 <? num)%nat then <[(num - 1)%nat := stop]> y else y.

(** [np.meshgrid(x, y)] followed by [flatten] on both grids: the pairs
    [(x[j], y[i])] at position [i * len(x) + j]. *)
Definition meshgrid_flat (x y : list float) : list float * list float :=
  (concat (map (fun _ : float => x) y),
   concat (map (fun b : float => map (fun _ : float => b) x) y)).

(** [a[flag]] with a boolean mask of the same length. *)
Fixpoint mask {A : Type} (a : list A) (flag : list bool) : list A :=
  match a, flag with
  | x :: a', b :: flag' => if b then x :: mask a' flag' else mask a' flag'
  | _, _ => []
  end.

End Np.

(** ** The polygon object handed to [plot_plate_motion] *)

(** What the sampler uses of a [shapely.geometry.Polygon]: the closed
    exterior ring, coordinates in (lat, lon), and the containment test. *)
Class Shapely (P : Type) : Type := {
  exterior_coords : P -> list (float * float);
  contains : P -> float * float -> bool
}.

Section Sampler.
Context {P : Type} `{Shapely P}.

(** Lines 126-153, for counts [ny], [nx] that are not negative. *)
Definition _sample_coords_within_polygon (polygon_obj : P) (ny nx : nat)
  : result (list float * list float) :=
  let poly_lats := map fst (exterior_coords polygon_obj) in
  let poly_lons := map snd (exterior_coords polygon_obj) in
  lat_lo ← Np.min poly_lats;
  lat_hi ← Np.max poly_lats;
  lon_lo ← Np.min poly_lons;
  lon_hi ← Np.max poly_lons;
  let '(cand_lats, cand_lons) :=
    Np.meshgrid_flat (Np.linspace lat_lo lat_hi ny) (Np.linspace lon_lo lon_hi nx) in
  let flag := map (contains polygon_obj) (zip cand_lats cand_lons) in
  Ok (Np.mask cand_lats flag, Np.mask cand_lons flag).

End Sampler.

(** ** The quiver correction (lines 214-220) *)

(** The arithmetic the correction needs. [cos_deg x] is
    [np.cos(np.deg2rad(x))], a library routine taken as a parameter. *)
Class Arith (T : Type) : Type := {
  add : T -> T -> T;
  mul : T -> T -> T;
  div : T -> T -> T;
  sqrt : T -> T;
  cos_deg : T -> T
}.

Section Corrector.
Context {T : Type} `{Arith T}.

Definition hypot2 (e n : T) : T := sqrt (add (mul e e) (mul n n)).

(** [ve], [vn] in mm/yr at the latitudes [sample_lats]; returns the
    arrays [ve], [vn] as they stand after line 220. *)
Definition correct (sample_lats ve vn : list T) : list T * list T :=
  let norm := zip_with hypot2 ve vn in
  let ve := zip_with (fun e lat => div e (cos_deg lat)) ve sample_lats in
  let renorm := zip_with div (zip_with hypot2 ve vn) norm in
  let ve := zip_with div ve renorm in
  let vn := zip_with div vn renorm in
  (ve, vn).

End Corrector.

(** IEEE binary64 arithmetic, for a given cosine routine. *)
Definition float_arith (np_cos_deg : float -> float) : Arith float :=
  {| add := PrimFloat.add; mul := PrimFloat.mul; div := PrimFloat.div;
     sqrt := PrimFloat.sqrt; cos_deg := np_cos_deg |}.


(** ** A polygon given by its vertices, with the even-odd rule

    A stand-in for a shapely polygon in the examples: the exterior ring is
    the vertex list closed by its first vertex, and a point is inside when
    a ray from it crosses the boundary an odd number of times and it does
    not lie on the boundary. *)

Record ring_polygon : Type := mkRing { shell_of : list (float * float) }.

Definition close_ring (vs : list (float * float)) : list (float * float) :=
  match vs with
  | [] => []
  | v :: _ => vs ++ [v]
  end.

Definition crosses (p a b : float * float) : bool :=
  let '(x, y) := p in
  let '(x1, y1) := a in
  let '(x2, y2) := b in
  negb (Bool.eqb (PrimFloat.ltb y y1) (PrimFloat.ltb y y2))
  && PrimFloat.ltb x
       (PrimFloat.add
          (PrimFloat.div (PrimFloat.mul (PrimFloat.sub x2 x1) (PrimFloat.sub y y1))
                         (PrimFloat.sub y2 y1))
          x1).

Fixpoint crossings (p : float * float) (ring : list (float * float)) : nat :=
  match ring with
  | a :: ((b :: _) as ring') =>
      ((if crosses p a b then 1 else 0) + crossings p ring')%nat
  | _ => 0%nat
  end.

Definition on_segment (p a b : float * float) : bool :=
  let '(x, y) := p in
  let '(x1, y1) := a in
  let '(x2, y2) := b in
  PrimFloat.eqb (PrimFloat.mul (PrimFloat.sub x2 x1) (PrimFloat.sub y y1))
                (PrimFloat.mul (PrimFloat.sub y2 y1) (PrimFloat.sub x x1))
  && PrimFloat.leb (Np.fmin x1 x2) x && PrimFloat.leb x (Np.fmax x1 x2)
  && PrimFloat.leb (Np.fmin y1 y2) y && PrimFloat.leb y (Np.fmax y1 y2).

Fixpoint on_ring (p : float * float) (ring : list (float * float)) : bool :=
  match ring with
  | a :: ((b :: _) as ring') => on_segment p a b || on_ring p ring'
  | _ => false
  end.

(** Inside by the even-odd rule and not on the boundary. *)
Definition even_odd (poly : ring_polygon) (p : float * float) : bool :=
  let ring := close_ring (shell_of poly) in
  Nat.odd (crossings p ring) && negb (on_ring p ring).

Definition ring_shapely : Shapely ring_polygon :=
  {| exterior_coords := fun poly => close_ring (shell_of poly);
     contains := even_odd |}.

(** A stand-in for [geometry.Polygon] in the examples: every row must
    hold two or three coordinates, and the ring, closed by its first vertex
    unless it is closed already, must hold at least four coordinates;
    shapely raises [ValueError] otherwise. *)
Definition row_pair (r : list float) : result (float * float) :=
  match r with
  | [x; y] | [x; y; _] => Ok (x, y)
  | _ => Raise (ValueError "coordinates must have two or three ordinates")
  end.

Definition same_point (a b : float * float) : bool :=
  PrimFloat.eqb a.1 b.1 && PrimFloat.eqb a.2 b.2.

Definition ring_Polygon (shell : list (list float)) : result ring_polygon :=
  vs ← convert_all row_pair shell;
  let closed :=
    match vs, List.last vs (0%float, 0%float) with
    | v :: _, l => if same_point v l then vs else vs ++ [v]
    | [], _ => vs
    end in
  if (4 <=? length closed)%nat then Ok (mkRing vs)
  else Raise (ValueError "A linearring requires at least 4 coordinates.").

(** The square of the example, and its closed ring. *)
Definition square : list (float * float) :=
  [(0, 0); (0, 10); (10, 10); (10, 0)]%float.

Definition square_ring : list (float * float) :=
  [(0, 0); (0, 10); (10, 10); (10, 0); (0, 0)]%float.

(** The box [0, 10] x [0, 10], end points included. *)
Definition in_box (c : float * float) : bool :=
  PrimFloat.leb 0 (fst c) && PrimFloat.leb (fst c) 10
  && PrimFloat.leb 0 (snd c) && PrimFloat.leb (snd c) 10.

(** ** Notions used in the statements *)

(** A string of whitespace only (the empty string included). *)
Fixpoint allspace (s : string) : bool :=
  match s with
  | EmptyString => true
  | String c s' => Str.isspace c && allspace s'
  end.


(** The keys of [outs] are values of the abbreviation table. *)
Definition keys_named {F : Type} (abbrev2name : gmap string string)
    (outs : gmap string (list (list F))) : Prop :=
  forall n, is_Some (outs !! n) -> exists k, abbrev2name !! k = Some n.

(** Lines 136-143 alone: the candidate points of a polygon, before the
    containment test. *)
Definition candidates {P : Type} `{Shapely P} (polygon_obj : P) (ny nx : nat)
  : result (list (float * float)) :=
  let poly_lats := map fst (exterior_coords polygon_obj) in
  let poly_lons := map snd (exterior_coords polygon_obj) in
  lat_lo ← Np.min poly_lats;
  lat_hi ← Np.max poly_lats;
  lon_lo ← Np.min poly_lons;
  lon_hi ← Np.max poly_lons;
  let '(cand_lats, cand_lons) :=
    Np.meshgrid_flat (Np.linspace lat_lo lat_hi ny) (Np.linspace lon_lo lon_hi nx) in
  Ok (zip cand_lats cand_lons).

(** The candidate lattice of a polygon with the given extrema. *)
Definition lattice (lat_lo lat_hi lon_lo lon_hi : float) (ny nx : nat)
  : list (float * float) :=
  let g := Np.meshgrid_flat (Np.linspace lat_lo lat_hi ny) (Np.linspace lon_lo lon_hi nx) in
  zip (fst g) (snd g).


(** Every stored outline has at least one row, and its rows have one length. *)
Definition rows_regular {F : Type} (outs : gmap string (list (list F))) : Prop :=
  forall n rows, outs !! n = Some rows ->
    rows <> [] /\ exists w, Forall (fun r => length r = w) rows.

(** ** The arrows of [plot_plate_motion] (lines 205-220)

    The arrays handed to [quiver] when the plate boundary and the Euler
    pole are given: the sample longitudes and latitudes and the corrected
    East and North velocities in mm/yr. [get_velocity_enu] stands for the
    first two results of the method of that name of the Euler pole object,
    in m/yr; [qnum] is the entry of that name in [kwargs]. *)
Definition quiver_arrays {P : Type} `{Shapely P} (np_cos_deg : float -> float)
    (get_velocity_enu : list float -> list float -> list float * list float)
    (plate_boundary : P) (qnum : nat)
  : result (list float * list float * list float * list float) :=
  '(sample_lats, sample_lons) ← _sample_coords_within_polygon plate_boundary qnum qnum;
  let '(ve, vn) := get_velocity_enu sample_lats sample_lons in
  let ve := map (fun v => PrimFloat.mul v 1000%float) ve in
  let vn := map (fun v => PrimFloat.mul v 1000%float) vn in
  let '(ve, vn) := @correct float (float_arith np_cos_deg) sample_lats ve vn in
  Ok (sample_lons, sample_lats, ve, vn).

(** ** The plot settings of [plot_plate_motion] (lines 155-173) *)

(** The Python values that occur in [kwargs]. *)
Inductive pyval : Type :=
| PyNone
| PyStr (s : string)
| PyInt (n : Z)
| PyFloat (x : float)
| PyList (l : list float).

(** The keys with their default values, in the order of the assignments. *)
#[warning="-inexact-float"]
Definition PLOT_DEFAULTS : list (string * pyval) :=
  [ ("c_ocean", PyStr "w");
    ("c_land", PyStr "lightgray");
    ("c_plate", PyStr "mistyrose");
    ("lw_coast", PyFloat 0.5);
    ("lw_pbond", PyInt 1);
    ("lc_pbond", PyStr "coral");
    ("alpha_plate", PyFloat 0.4);
    ("grid_ls", PyStr "--");
    ("grid_lw", PyFloat 0.3);
    ("grid_lc", PyStr "gray");
    ("qnum", PyInt 6);
    ("pts_lalo", PyNone);
    ("pts_marker", PyStr "^");
    ("pts_ms", PyInt 20);
    ("pts_mfc", PyStr "r");
    ("pts_mec", PyStr "k");
    ("pts_mew", PyInt 1) ].

(** [kwargs[k] = kwargs.get(k, d)]. *)
Definition set_default (kwargs : gmap string pyval) (kd : string * pyval)
  : gmap string pyval :=
  <[kd.1 := default kd.2 (kwargs !! kd.1)]> kwargs.

Definition plot_settings (kwargs : gmap string pyval) : gmap string pyval :=
  foldl set_default kwargs PLOT_DEFAULTS.

(** * Unit checks of the embedding *)

Example split_ex : Str.split ("  10.0   40.0 " +:+ Str.nl) = ["10.0"; "40.0"].
Proof. reflexivity. Qed.
Example split_on_ex1 : Str.split_on "> " ("> AR > x" +:+ Str.nl) = [EmptyString; "AR "; "x" +:+ Str.nl].
Proof. reflexivity. Qed.
Example split_on_ex2 : Str.split_on "> " "> " = [EmptyString; EmptyString].
Proof. reflexivity. Qed.
Example split_on_ex3 : Str.split_on "." "a/b.c/plate_outlines.lola" = ["a/b"; "c/plate_outlines"; "lola"].
Proof. reflexivity. Qed.
Example basename_ex : Str.basename "/x/plate_boundary/GSRM/plate_outlines.lola" = "plate_outlines.lola".
Proof. reflexivity. Qed.
Example upper_ex : Str.upper "ar Z9" = "AR Z9".
Proof. reflexivity. Qed.
Example endswith_ex : Str.endswith ("AR" +:+ Str.nl) Str.nl = true /\ Str.endswith "AR" Str.nl = false.
Proof. split; reflexivity. Qed.

Example header_key_ex :
  header_key (ln "> AR") = Ok "AR" /\ header_key (ln "# AR") = Ok "AR"
  /\ header_key (ln "AR") = Ok "AR" /\ header_key (ln "> AR  ") = Ok "AR  ".
Proof. repeat split; reflexivity. Qed.

Example is_header_ex :
  map is_header [ln "> AR"; ln "AR"; ln "10.0 40.0"; Str.nl; ln "1.0 2.0 3.0"]
  = [true; true; false; false; false].
Proof. reflexivity. Qed.

Example py_repr_ex :
  py_repr "XX" = "'XX'" /\ py_repr (ln "AR") = "'AR\n'"
  /\ py_repr "it's" = String (ascii_of_nat 34) ("it's" +:+ String (ascii_of_nat 34) EmptyString)
  /\ py_repr (String (ascii_of_nat 160) "a\b") = "'\xa0a\\b'".
Proof. repeat split; reflexivity. Qed.

Example decimal_float_ex :
  map decimal_float ["10.0"; "-2.5"; "3"; ".5"; "1e3"; "abc"; "1.2.3"; EmptyString]
  = [Some 10%float; Some (-2.5)%float; Some 3%float; Some 0.5%float; None; None; None; None].
Proof. vm_compute. reflexivity. Qed.


(** * The reader: loop lemmas *)

Lemma bind_Ok {A B : Type} (r : result A) (k : A -> result B) (b : B) :
  (r ≫= k) = Ok b <-> exists a, r = Ok a /\ k a = Ok b.
Proof.
  destruct r as [a|e]; simpl; split.
  - intros Hk. exists a. split; [reflexivity | exact Hk].
  - intros (a' & Ha & Hk). inversion Ha; subst. exact Hk.
  - discriminate.
  - intros (a' & Ha & _). discriminate.
Qed.

Lemma for_each_app {A S : Type} (f : S -> A -> result S) (l1 l2 : list A) (s : S) :
  for_each f (l1 ++ l2) s = (for_each f l1 s ≫= for_each f l2).
Proof.
  revert s. induction l1 as [|a l1 IH]; intros s; simpl; [reflexivity|].
  destruct (f s a) as [s'|e]; simpl; [apply IH | reflexivity].
Qed.

Section ReaderFacts.
Context {F : Type}.
Variable astype_float : string -> option F.
Variable order : coord_order.
Variable abbrev2name : gmap string string.

Local Abbreviation stepF := (step astype_float order abbrev2name).
Local Abbreviation read_linesF := (read_lines astype_float order abbrev2name).

(** A data line never touches [outlines] nor the pending abbreviation. *)
Lemma step_data_outlines (st st' : state F) (line : string) :
  is_header line = false -> stepF st line = Ok st' ->
  outlines st' = outlines st /\ key st' = key st.
Proof.
  intros Hh. unfold step. rewrite Hh.
  destruct (vertex astype_float order line) as [v|e]; simpl; [|discriminate].
  destruct (vertices st); [|discriminate].
  intros [= <-]. split; reflexivity.
Qed.

(** Data lines after the last header leave [outlines] as that header
    left it: nothing commits the record they belong to. *)
Lemma data_lines_outlines (ds : list string) (st st' : state F) :
  Forall (fun l => is_header l = false) ds ->
  for_each stepF ds st = Ok st' -> outlines st' = outlines st.
Proof.
  intros Hds. revert st. induction Hds as [|l ds Hl _ IH]; intros st; simpl.
  - intros [= <-]. reflexivity.
  - destruct (stepF st l) as [s1|e] eqn:E; simpl; [|discriminate].
    intros Hrest. rewrite (IH _ Hrest).
    apply (step_data_outlines _ _ _ Hl E).
Qed.

Lemma trailing_record_dropped (pre ds : list string) (m : gmap string (list (list F))) :
  Forall (fun l => is_header l = false) ds ->
  read_linesF (pre ++ ds) = Ok m -> read_linesF pre = Ok m.
Proof.
  intros Hds. unfold read_lines. rewrite for_each_app.
  destruct (for_each stepF pre (init)) as [s1|e]; simpl; [|discriminate].
  destruct (for_each stepF ds s1) as [s2|e] eqn:E; simpl; [|discriminate].
  intros [= <-]. f_equal. symmetry. apply (data_lines_outlines _ _ _ Hds E).
Qed.

(** A header met while the pending abbreviation is not in the table. *)
Lemma step_unknown_key (st : state F) (k : string) (v : list F) (vs : list (list F))
    (h : string) :
  key st = Some k -> vertices st = Some (v :: vs) -> Str.truthy k = true ->
  abbrev2name !! k = None -> is_header h = true ->
  stepF st h = Raise (KeyError k).
Proof.
  intros Hk Hv Ht Hm Hh. unfold step, commit, map_get.
  rewrite Hh, Hk, Hv, Ht, Hm. reflexivity.
Qed.

End ReaderFacts.

(** * The abbreviation table *)

Lemma upper_char_idem (c : ascii) : Str.upper_char (Str.upper_char c) = Str.upper_char c.
Proof. destruct c as [[] [] [] [] [] [] [] []]; reflexivity. Qed.

Lemma upper_idem (s : string) : Str.upper (Str.upper s) = Str.upper s.
Proof.
  induction s as [|c s IH]; simpl; [reflexivity|].
  rewrite upper_char_idem, IH. reflexivity.
Qed.

Section Abbrev2Name.

Local Abbreviation ins :=
  (fun (m : gmap string string) (kv : string * Tag) => <[Str.upper (Abbrev kv.2) := kv.1]> m).

Lemma abbrev_fold_keys_upper (d : list (string * Tag)) (m : gmap string string) :
  (forall k, is_Some (m !! k) -> Str.upper k = k) ->
  forall k, is_Some (foldl ins m d !! k) -> Str.upper k = k.
Proof.
  revert m. induction d as [|[n t] d IH]; intros m Hm k; simpl; [apply Hm|].
  apply IH. intros k'. destruct (decide (Str.upper (Abbrev t) = k')) as [<-|Hne].
  - intros _. apply upper_idem.
  - rewrite lookup_insert_ne by exact Hne. apply Hm.
Qed.

Lemma abbrev_fold_mono (d : list (string * Tag)) (m : gmap string string) (k : string) :
  is_Some (m !! k) -> is_Some (foldl ins m d !! k).
Proof.
  revert m. induction d as [|[n t] d IH]; intros m Hk; simpl; [exact Hk|].
  apply IH. destruct (decide (Str.upper (Abbrev t) = k)) as [<-|Hne].
  - rewrite lookup_insert_eq. eauto.
  - rewrite lookup_insert_ne by exact Hne. exact Hk.
Qed.

Lemma abbrev_fold_values (d : list (string * Tag)) (m : gmap string string) (k n : string) :
  foldl ins m d !! k = Some n -> m !! k = Some n \/ n ∈ d.*1.
Proof.
  revert m. induction d as [|[n' t] d IH]; intros m; simpl; [auto|].
  intros Hk. destruct (IH _ Hk) as [Hm|Hd].
  - destruct (decide (Str.upper (Abbrev t) = k)) as [<-|Hne].
    + rewrite lookup_insert_eq in Hm. injection Hm as ->. right. apply list_elem_of_here.
    + rewrite lookup_insert_ne in Hm by exact Hne. left. exact Hm.
  - right. apply list_elem_of_further. exact Hd.
Qed.

Lemma abbrev_fold_skip (d : list (string * Tag)) (m : gmap string string) (k : string) :
  k ∉ (fun kv : string * Tag => Str.upper (Abbrev kv.2)) <$> d ->
  foldl ins m d !! k = m !! k.
Proof.
  revert m. induction d as [|[n t] d IH]; intros m Hk; simpl; [reflexivity|].
  rewrite fmap_cons, not_elem_of_cons in Hk. destruct Hk as [Hne Hk].
  rewrite (IH _ Hk). apply lookup_insert_ne. simpl in Hne. congruence.
Qed.

Lemma abbrev_fold_unique (d : list (string * Tag)) (m : gmap string string)
    (n : string) (t : Tag) :
  NoDup ((fun kv : string * Tag => Str.upper (Abbrev kv.2)) <$> d) ->
  (n, t) ∈ d -> foldl ins m d !! Str.upper (Abbrev t) = Some n.
Proof.
  revert m. induction d as [|[n' t'] d IH]; intros m Hnd Hin.
  - inversion Hin.
  - rewrite fmap_cons, NoDup_cons in Hnd. destruct Hnd as [Hfresh Hnd]. simpl.
    apply elem_of_cons in Hin. destruct Hin as [[= -> ->]|Hin].
    + rewrite (abbrev_fold_skip _ _ _ Hfresh). apply lookup_insert_eq.
    + apply (IH _ Hnd Hin).
Qed.

End Abbrev2Name.

(** Every key of the table is the upper-cased form of itself. *)
Lemma abbrev2name_keys_upper (pmm_dict : list (string * Tag)) (k : string) :
  is_Some (plate_abbrev2name pmm_dict !! k) -> Str.upper k = k.
Proof.
  apply abbrev_fold_keys_upper. intros k' [x Hx]. rewrite lookup_empty in Hx. discriminate.
Qed.

(** Every catalog abbreviation is a key, in upper case. *)
Lemma abbrev2name_has_upper (pmm_dict : list (string * Tag)) (n : string) (t : Tag) :
  (n, t) ∈ pmm_dict -> is_Some (plate_abbrev2name pmm_dict !! Str.upper (Abbrev t)).
Proof.
  unfold plate_abbrev2name. generalize (∅ : gmap string string).
  induction pmm_dict as [|[n' t'] d IH]; intros m Hin; [inversion Hin|].
  simpl. apply elem_of_cons in Hin. destruct Hin as [[= -> ->]|Hin].
  - apply abbrev_fold_mono. rewrite lookup_insert_eq. eauto.
  - apply IH. exact Hin.
Qed.

(** The values of the table are plate names of the catalog. *)
Lemma abbrev2name_values (pmm_dict : list (string * Tag)) (k n : string) :
  plate_abbrev2name pmm_dict !! k = Some n -> n ∈ pmm_dict.*1.
Proof.
  intros Hk. destruct (abbrev_fold_values _ _ _ _ Hk) as [He|Hd]; [|exact Hd].
  rewrite lookup_empty in He. discriminate.
Qed.

(** With pairwise distinct abbreviations every plate name is a value. *)
Lemma abbrev2name_unique (pmm_dict : list (string * Tag)) (n : string) (t : Tag) :
  NoDup ((fun kv : string * Tag => Str.upper (Abbrev kv.2)) <$> pmm_dict) ->
  (n, t) ∈ pmm_dict -> plate_abbrev2name pmm_dict !! Str.upper (Abbrev t) = Some n.
Proof. apply abbrev_fold_unique. Qed.

Section ReaderRuns.
Context {F : Type}.
Variable astype_float : string -> option F.
Variable order : coord_order.
Variable abbrev2name : gmap string string.

Local Abbreviation stepF := (step astype_float order abbrev2name).
Local Abbreviation vertexF := (vertex astype_float order).

Lemma step_header (st : state F) (h : string) :
  is_header h = true ->
  stepF st h = (commit abbrev2name st ≫= fun outs =>
                header_key h ≫= fun k => Ok (mkState (Some k) (Some []) outs)).
Proof. intros Hh. unfold step. rewrite Hh. reflexivity. Qed.

Lemma step_data (st : state F) (l : string) (v : list F) (rows : list (list F)) :
  is_header l = false -> vertexF l = Ok v -> vertices st = Some rows ->
  stepF st l = Ok (mkState (key st) (Some (rows ++ [v])) (outlines st)).
Proof. intros Hh Hv Hr. unfold step. rewrite Hh, Hv. simpl. rewrite Hr. reflexivity. Qed.

(** A run of well-formed data lines appends their vertices, in order. *)
Lemma data_lines_run (ds : list string) (verts : list (list F)) :
  Forall2 (fun l v => is_header l = false /\ vertexF l = Ok v) ds verts ->
  forall (st : state F) (rows : list (list F)),
  vertices st = Some rows ->
  for_each stepF ds st = Ok (mkState (key st) (Some (rows ++ verts)) (outlines st)).
Proof.
  induction 1 as [|l v ds verts [Hh Hv] _ IH]; intros st rows Hr; simpl.
  - rewrite app_nil_r. destruct st; simpl in *; subst. reflexivity.
  - rewrite (step_data _ _ _ _ Hh Hv Hr). simpl.
    rewrite (IH (mkState (key st) (Some (rows ++ [v])) (outlines st)) (rows ++ [v]) eq_refl).
    simpl. rewrite <- app_assoc. reflexivity.
Qed.

End ReaderRuns.

(** * End of input *)

(** C1. The claim: a final record (header, coordinate lines, end of input)
    is committed like the records that a later header follows. On the
    end-to-end file of one record the reader returns the empty dictionary:
    the record of [AR] is stored only once a further header line comes. *)
Theorem C1_final_record_not_committed :
  read_lines decimal_float lalo (plate_abbrev2name arabia_only)
    [ln "> AR"; ln "10.0 40.0"; ln "12.0 42.0"; ln "11.0 41.0"] = Ok ∅
  /\ read_lines decimal_float lalo (plate_abbrev2name arabia_only)
       [ln "> AR"; ln "10.0 40.0"; ln "12.0 42.0"; ln "11.0 41.0"; ln "> AR"]
     = Ok {[ "Arabia" := [[10; 40]; [12; 42]; [11; 41]]%float ]}.
Proof. split; vm_compute; reflexivity. Qed.

(** * Unknown and mis-cased abbreviations *)

(** C6 as stated fails: the error raised for the unknown abbreviation [XX]
    is [KeyError('XX')], whose text does not name the boundary file. *)
Lemma C6_error_without_path :
  let file := abspath_dot "/data" "plate_boundary/MORVEL/plate_outlines.lalo" in
  let readlines := fun _ : string => Ok [ln "> XX"; ln "10.0 40.0"; ln "> AR"] in
  read_plate_outline decimal_float ring_Polygon "/data" readlines "MORVEL" None
    = Raise (KeyError "XX")
  /\ Str.contains (exn_str (KeyError "XX")) "XX" = true
  /\ Str.contains (exn_str (KeyError "XX")) file = false.
Proof. vm_compute. repeat split; reflexivity. Qed.

(** C6, amended. When the record of an abbreviation absent from the table
    (a header, then at least one coordinate line) is followed by another
    header line, the reader fails at that header with [KeyError], a
    [LookupError], whose only argument is the missing abbreviation. *)
Theorem C6_unknown_abbreviation {F : Type} (astype_float : string -> option F)
    (order : coord_order) (abbrev2name : gmap string string)
    (pre : list string) (hk : string) (data : list string) (h : string)
    (post : list string) (st : state F) (k : string) (verts : list (list F)) :
  for_each (step astype_float order abbrev2name) (pre ++ [hk]) init = Ok st ->
  is_header hk = true -> header_key hk = Ok k -> k <> EmptyString ->
  abbrev2name !! k = None ->
  data <> [] ->
  Forall2 (fun l v => is_header l = false /\ vertex astype_float order l = Ok v) data verts ->
  is_header h = true ->
  read_lines astype_float order abbrev2name (pre ++ hk :: data ++ h :: post)
    = Raise (KeyError k)
  /\ is_LookupError (KeyError k) = true
  /\ exn_str (KeyError k) = py_repr k.
Proof.
  intros Hpre Hhk Hkey Hne Hnone Hdata Hrun Hh.
  split; [|split; reflexivity].
  assert (Hst : key st = Some k /\ vertices st = Some []).
  { rewrite for_each_app in Hpre. apply bind_Ok in Hpre. destruct Hpre as (s0 & _ & Hs).
    simpl in Hs. rewrite (step_header _ _ _ _ _ Hhk) in Hs. rewrite Hkey in Hs.
    destruct (commit abbrev2name s0); simpl in Hs; [|discriminate].
    injection Hs as <-. split; reflexivity. }
  destruct Hst as [Hk Hv].
  unfold read_lines.
  replace (pre ++ hk :: data ++ h :: post) with ((pre ++ [hk]) ++ data ++ h :: post)
    by (rewrite <- app_assoc; reflexivity).
  rewrite for_each_app, Hpre. simpl.
  rewrite for_each_app, (data_lines_run _ _ _ _ _ Hrun st [] Hv). simpl.
  destruct verts as [|v vs].
  { apply Forall2_nil_inv_r in Hrun. contradiction. }
  rewrite (step_unknown_key _ _ _ _ k v vs h); simpl; try reflexivity; try assumption.
  unfold Str.truthy. destruct (String.eqb_spec k EmptyString); [contradiction | reflexivity].
Qed.

Lemma C6_unknown_abbreviation_witness :
  read_lines decimal_float lalo (plate_abbrev2name arabia_only)
    ([] ++ ln "> XX" :: [ln "10.0 40.0"] ++ ln "> AR" :: [])
    = Raise (KeyError "XX")
  /\ is_LookupError (KeyError "XX") = true
  /\ exn_str (KeyError "XX") = py_repr "XX".
Proof.
  apply (C6_unknown_abbreviation decimal_float lalo (plate_abbrev2name arabia_only)
           [] (ln "> XX") [ln "10.0 40.0"] (ln "> AR") []
           (mkState (Some "XX") (Some []) ∅) "XX" [[10; 40]%float]).
  - vm_compute. reflexivity.
  - reflexivity.
  - reflexivity.
  - discriminate.
  - vm_compute. reflexivity.
  - discriminate.
  - constructor; [split; vm_compute; reflexivity | constructor].
  - reflexivity.
Defined.

(** C10. The table is keyed by the upper-cased catalog abbreviations and
    the header token is looked up as written. So a pending abbreviation
    that equals a catalog abbreviation only up to letter case is not a key:
    the header that would commit its record raises [KeyError] for it. Only
    tokens that are their own upper-cased form can resolve. *)
Theorem C10_lookup_is_case_sensitive {F : Type} (astype_float : string -> option F)
    (order : coord_order) (pmm_dict : list (string * Tag))
    (name : string) (tag : Tag) (k : string)
    (st : state F) (v : list F) (vs : list (list F)) (h : string) :
  (name, tag) ∈ pmm_dict ->
  Str.upper k = Str.upper (Abbrev tag) -> k <> Str.upper k ->
  key st = Some k -> vertices st = Some (v :: vs) -> is_header h = true ->
  is_Some (plate_abbrev2name pmm_dict !! Str.upper (Abbrev tag))
  /\ plate_abbrev2name pmm_dict !! k = None
  /\ step astype_float order (plate_abbrev2name pmm_dict) st h = Raise (KeyError k)
  /\ (forall k', is_Some (plate_abbrev2name pmm_dict !! k') -> Str.upper k' = k').
Proof.
  intros Hin Hcase Hlow Hk Hv Hh.
  assert (Hnone : plate_abbrev2name pmm_dict !! k = None).
  { destruct (plate_abbrev2name pmm_dict !! k) eqn:E; [|reflexivity].
    exfalso. apply Hlow. symmetry. apply (abbrev2name_keys_upper pmm_dict). eauto. }
  split; [apply (abbrev2name_has_upper _ _ _ Hin)|].
  split; [exact Hnone|].
  split; [|apply abbrev2name_keys_upper].
  apply (step_unknown_key _ _ _ _ k v vs h); try assumption.
  unfold Str.truthy. destruct (String.eqb_spec k EmptyString); [|reflexivity].
  subst k. exfalso. apply Hlow. reflexivity.
Qed.

Lemma C10_lookup_is_case_sensitive_witness :
  is_Some (plate_abbrev2name GSRM_V21_PMM !! Str.upper "AR")
  /\ plate_abbrev2name GSRM_V21_PMM !! "ar" = None
  /\ step decimal_float lola (plate_abbrev2name GSRM_V21_PMM)
       (mkState (Some "ar") (Some [[40; 10]%float]) ∅) (ln "> AU") = Raise (KeyError "ar")
  /\ (forall k', is_Some (plate_abbrev2name GSRM_V21_PMM !! k') -> Str.upper k' = k').
Proof.
  apply (C10_lookup_is_case_sensitive decimal_float lola GSRM_V21_PMM
           "Arabia" (mkTag "AR" 51.12 (-19.87) 0.484) "ar"
           (mkState (Some "ar") (Some [[40; 10]%float]) ∅) [40; 10]%float [] (ln "> AU")).
  - do 3 apply list_elem_of_further. apply list_elem_of_here.
  - reflexivity.
  - discriminate.
  - reflexivity.
  - reflexivity.
  - reflexivity.
Defined.

(** The same on whole files: the lower-case header fails, the upper-case
    one resolves. *)
Example mis_cased_header_file :
  read_lines decimal_float lola (plate_abbrev2name GSRM_V21_PMM)
    [ln "> ar"; ln "40.0 10.0"; ln "> AU"] = Raise (KeyError "ar")
  /\ read_lines decimal_float lola (plate_abbrev2name GSRM_V21_PMM)
       [ln "> AR"; ln "40.0 10.0"; ln "> AU"] = Ok {[ "Arabia" := [[10; 40]%float] ]}.
Proof. split; vm_compute; reflexivity. Qed.

(** * Data lines *)

Lemma convert_all_Forall2 {A B : Type} (f : A -> result B) (l : list A) (xs : list B) :
  convert_all f l = Ok xs <-> Forall2 (fun a b => f a = Ok b) l xs.
Proof.
  revert xs. induction l as [|a l IH]; intros xs; simpl.
  - split.
    + intros [= <-]. constructor.
    + intros Hx. inversion Hx. reflexivity.
  - split.
    + intros Hb. apply bind_Ok in Hb. destruct Hb as (b & Hfa & Hb).
      apply bind_Ok in Hb. destruct Hb as (bs & Hl & Hxs).
      cbv beta in Hxs. injection Hxs as <-.
      constructor; [exact Hfa | apply IH; exact Hl].
    + intros Hx. inversion Hx as [|a' b l' bs Hfa Hl]; subst.
      rewrite Hfa. simpl. apply IH in Hl. rewrite Hl. reflexivity.
Qed.

Lemma convert_all_length {A B : Type} (f : A -> result B) (l : list A) (xs : list B) :
  convert_all f l = Ok xs -> length xs = length l.
Proof.
  intros Hx. apply convert_all_Forall2 in Hx. symmetry. apply (Forall2_length _ _ _ Hx).
Qed.

Lemma convert_all_Raise {F : Type} (astype_float : string -> option F)
    (l : list string) (e : exn) :
  convert_all (to_float astype_float) l = Raise e ->
  exists tok, tok ∈ l /\ astype_float tok = None
              /\ e = ValueError ("could not convert string to float: '" +:+ tok +:+ "'").
Proof.
  induction l as [|a l IH]; simpl; [discriminate|].
  destruct (to_float astype_float a) as [x|e0] eqn:Ea; simpl.
  - destruct (convert_all (to_float astype_float) l) as [bs|e']; simpl; [discriminate|].
    intros [= <-]. destruct (IH eq_refl) as (tok & Hin & Hnone & He).
    exists tok. split; [apply list_elem_of_further; exact Hin | split; assumption].
  - intros [= <-]. unfold to_float in Ea. destruct (astype_float a) eqn:Ef; [discriminate|].
    injection Ea as <-.
    exists a. split; [apply list_elem_of_here | split; [exact Ef | reflexivity]].
Qed.

(** C4 as stated fails: the line [1.0 2.0 3.0] has three tokens, yet the
    reader raises nothing and stores it as a vertex of three components. *)
Lemma C4_three_tokens_accepted :
  length (Str.split (ln "1.0 2.0 3.0")) = 3%nat
  /\ read_lines decimal_float lalo (plate_abbrev2name arabia_only)
       [ln "> AR"; ln "1.0 2.0 3.0"; ln "> AR"]
     = Ok {[ "Arabia" := [[1; 2; 3]%float] ]}.
Proof. split; vm_compute; reflexivity. Qed.

(** C4, amended. The number of tokens of a data line is not checked. After
    a header, a line that is not a header and whose tokens all convert to
    float is appended to the pending vertices as a row of as many
    components (reversed under [lola]); the line raises only when one of
    its tokens does not convert, and then the [ValueError] names that
    token, not the line or its number. *)
Theorem C4_token_count_unchecked {F : Type} (astype_float : string -> option F)
    (order : coord_order) (abbrev2name : gmap string string)
    (st : state F) (line : string) (rows : list (list F)) :
  is_header line = false -> vertices st = Some rows ->
  (forall xs, convert_all (to_float astype_float) (Str.split line) = Ok xs ->
     let row := match order with lola => rev xs | lalo => xs end in
     step astype_float order abbrev2name st line
       = Ok (mkState (key st) (Some (rows ++ [row])) (outlines st))
     /\ length row = length (Str.split line))
  /\ (forall e, step astype_float order abbrev2name st line = Raise e ->
        exists tok, tok ∈ Str.split line /\ astype_float tok = None
          /\ e = ValueError ("could not convert string to float: '" +:+ tok +:+ "'")).
Proof.
  intros Hh Hr. split.
  - intros xs Hx row. split.
    + apply step_data; [exact Hh | | exact Hr].
      unfold vertex. rewrite Hx. reflexivity.
    + subst row. pose proof (convert_all_length _ _ _ Hx) as Hlen.
      destruct order; [|rewrite length_rev]; exact Hlen.
  - intros e. unfold step, vertex. rewrite Hh.
    destruct (convert_all (to_float astype_float) (Str.split line)) as [xs|e'] eqn:Ex; simpl.
    + rewrite Hr. discriminate.
    + intros [= <-]. apply (convert_all_Raise _ _ _ Ex).
Qed.

Lemma C4_token_count_unchecked_witness :
  let st := mkState (Some "AR") (Some [[10; 40]%float]) ∅ in
  (forall xs, convert_all (to_float decimal_float) (Str.split (ln "1.0 2.0 3.0")) = Ok xs ->
     let row := rev xs in
     step decimal_float lola (plate_abbrev2name arabia_only) st (ln "1.0 2.0 3.0")
       = Ok (mkState (key st) (Some ([[10; 40]%float] ++ [row])) (outlines st))
     /\ length row = length (Str.split (ln "1.0 2.0 3.0")))
  /\ (forall e, step decimal_float lola (plate_abbrev2name arabia_only) st (ln "1.0 2.0 3.0")
                = Raise e ->
        exists tok, tok ∈ Str.split (ln "1.0 2.0 3.0") /\ decimal_float tok = None
          /\ e = ValueError ("could not convert string to float: '" +:+ tok +:+ "'")).
Proof.
  intros st.
  apply (C4_token_count_unchecked decimal_float lola (plate_abbrev2name arabia_only)
           st (ln "1.0 2.0 3.0") [[10; 40]%float]); reflexivity.
Defined.

(** * Whitespace, blank lines and leading lines *)

Lemma split_cons (c : ascii) (s : string) :
  Str.split (String c s) =
  if Str.isspace c then Str.split s
  else match s with
       | EmptyString => String c EmptyString :: Str.split s
       | String c' _ =>
           if Str.isspace c' then String c EmptyString :: Str.split s
           else match Str.split s with
                | w :: ws' => String c w :: ws'
                | [] => [String c EmptyString]
                end
       end.
Proof. reflexivity. Qed.

Lemma split_allspace (w : string) : allspace w = true -> Str.split w = [].
Proof.
  induction w as [|c w IH]; [reflexivity|].
  simpl allspace. intros [Hc Hw]%andb_prop.
  rewrite split_cons, Hc. apply IH, Hw.
Qed.

Lemma split_app_space (s w : string) :
  allspace w = true -> Str.split (s +:+ w) = Str.split s.
Proof.
  intros Hw. induction s as [|c s IH].
  - simpl. apply split_allspace, Hw.
  - change (String c s +:+ w) with (String c (s +:+ w)).
    rewrite !split_cons, IH.
    destruct (Str.isspace c); [reflexivity|].
    destruct s as [|c' s]; [|reflexivity].
    change (EmptyString +:+ w) with w. destruct w as [|c' w]; [reflexivity|].
    simpl in Hw. apply andb_prop in Hw. destruct Hw as [Hc' _]. rewrite Hc'. reflexivity.
Qed.

Lemma prefix_cons (a b : ascii) (s1 s2 : string) :
  String.prefix (String a s1) (String b s2)
  = if ascii_dec a b then String.prefix s1 s2 else false.
Proof. reflexivity. Qed.

Lemma prefix_empty (s : string) : String.prefix EmptyString s = true.
Proof. destruct s; reflexivity. Qed.

Lemma prefix_mark_app (m : ascii) (body w : string) :
  Str.isspace m = false -> allspace w = true ->
  String.prefix (String m " ") body = false ->
  (length (Str.split body) =? 1)%nat = false ->
  String.prefix (String m " ") (body +:+ w) = false.
Proof.
  intros Hm Hw Hp Hn. destruct body as [|c [|d body]].
  - change (EmptyString +:+ w) with w. destruct w as [|c w]; [reflexivity|].
    rewrite prefix_cons. destruct (ascii_dec m c) as [<-|]; [|reflexivity].
    simpl in Hw. rewrite Hm in Hw. discriminate.
  - change (String c EmptyString +:+ w) with (String c w).
    rewrite prefix_cons. destruct (ascii_dec m c) as [<-|]; [|reflexivity].
    rewrite split_cons, Hm in Hn. discriminate.
  - change (String c (String d body) +:+ w) with (String c (String d (body +:+ w))).
    revert Hp. rewrite !prefix_cons. destruct (ascii_dec m c); [|reflexivity].
    rewrite ?prefix_cons. destruct (ascii_dec " " d); [|reflexivity].
    rewrite prefix_empty. discriminate.
Qed.

Lemma is_header_app_space (body w : string) :
  allspace w = true -> is_header body = false -> is_header (body +:+ w) = false.
Proof.
  intros Hw. unfold is_header, Str.startswith.
  intros Hb. apply orb_false_elim in Hb. destruct Hb as [Hb Hn].
  apply orb_false_elim in Hb. destruct Hb as [Hgt Hsh].
  rewrite (split_app_space _ _ Hw), Hn.
  rewrite (prefix_mark_app ">" body w eq_refl Hw Hgt Hn).
  rewrite (prefix_mark_app "#" body w eq_refl Hw Hsh Hn).
  reflexivity.
Qed.

Lemma is_header_allspace (w : string) : allspace w = true -> is_header w = false.
Proof.
  intros Hw. apply (is_header_app_space EmptyString w Hw). reflexivity.
Qed.

Lemma convert_all_Ok_tokens {F : Type} (astype_float : string -> option F)
    (l : list string) (xs : list F) :
  convert_all (to_float astype_float) l = Ok xs ->
  forall tok, tok ∈ l -> is_Some (astype_float tok).
Proof.
  intros Hx. apply convert_all_Forall2 in Hx.
  induction Hx as [|a b l xs Hab _ IH]; intros tok Hin; [inversion Hin|].
  apply elem_of_cons in Hin. destruct Hin as [->|Hin]; [|apply IH, Hin].
  unfold to_float in Hab. destruct (astype_float a); [eauto | discriminate].
Qed.

(** C5 as stated fails: a line of text before the first header is not
    skipped. The reader raises [ValueError] on it, while the same file
    without that line is read. *)
Lemma C5_leading_noise_line_raises :
  is_header (ln "plate boundaries of GSRM") = false
  /\ read_lines decimal_float lalo (plate_abbrev2name arabia_only)
       [ln "plate boundaries of GSRM"; ln "> AR"; ln "10.0 40.0"; ln "> AR"]
     = Raise (ValueError "could not convert string to float: 'plate'")
  /\ read_lines decimal_float lalo (plate_abbrev2name arabia_only)
       [ln "> AR"; ln "10.0 40.0"; ln "> AR"]
     = Ok {[ "Arabia" := [[10; 40]%float] ]}.
Proof. repeat split; vm_compute; reflexivity. Qed.

(** C5, amended. Trailing whitespace on a coordinate line is tolerated:
    the line is processed as the line without it. Lines are not skipped: a
    file whose first line is not a header makes the reader fail at that
    line, with the [ValueError] of a token that does not convert to float
    or, when all its tokens convert (a blank line has none), with the
    [AttributeError] of appending to [None]; and a blank line after a
    header is appended to the pending vertices as an empty row. *)
Theorem C5_whitespace_and_stray_lines {F : Type} (astype_float : string -> option F)
    (order : coord_order) (abbrev2name : gmap string string)
    (st : state F) (rows : list (list F))
    (body w first blank : string) (rest : list string) :
  is_header body = false -> allspace w = true ->
  is_header first = false ->
  allspace blank = true -> vertices st = Some rows ->
  step astype_float order abbrev2name st (body +:+ w)
    = step astype_float order abbrev2name st body
  /\ ((exists tok, tok ∈ Str.split first /\ astype_float tok = None
         /\ read_lines astype_float order abbrev2name (first :: rest)
            = Raise (ValueError ("could not convert string to float: '" +:+ tok +:+ "'")))
      \/ ((forall tok, tok ∈ Str.split first -> is_Some (astype_float tok))
          /\ read_lines astype_float order abbrev2name (first :: rest)
             = Raise (AttributeError "'NoneType' object has no attribute 'append'")))
  /\ step astype_float order abbrev2name st blank
     = Ok (mkState (key st) (Some (rows ++ [[]])) (outlines st)).
Proof.
  intros Hbody Hw Hfirst Hblank Hrows. split; [|split].
  - unfold step, vertex.
    rewrite (is_header_app_space _ _ Hw Hbody), Hbody, (split_app_space _ _ Hw).
    reflexivity.
  - unfold read_lines. cbn [for_each]. unfold step, vertex. rewrite Hfirst.
    destruct (convert_all (to_float astype_float) (Str.split first)) as [xs|e] eqn:Ex.
    + right. split; [apply (convert_all_Ok_tokens _ _ _ Ex) | reflexivity].
    + left. destruct (convert_all_Raise _ _ _ Ex) as (tok & Hin & Hnone & ->).
      exists tok. split; [exact Hin|]. split; [exact Hnone | reflexivity].
  - apply step_data; [apply is_header_allspace, Hblank | | exact Hrows].
    unfold vertex. rewrite (split_allspace _ Hblank). simpl. destruct order; reflexivity.
Qed.

Lemma C5_whitespace_and_stray_lines_witness :
  let st := mkState (Some "AR") (Some [[10; 40]%float]) ∅ in
  step decimal_float lalo (plate_abbrev2name arabia_only) st ("12.0 42.0" +:+ ("  " +:+ Str.nl))
    = step decimal_float lalo (plate_abbrev2name arabia_only) st "12.0 42.0"
  /\ ((exists tok, tok ∈ Str.split (ln "plate boundaries of GSRM")
         /\ decimal_float tok = None
         /\ read_lines decimal_float lalo (plate_abbrev2name arabia_only)
              (ln "plate boundaries of GSRM" :: [ln "> AR"])
            = Raise (ValueError ("could not convert string to float: '" +:+ tok +:+ "'")))
      \/ ((forall tok, tok ∈ Str.split (ln "plate boundaries of GSRM") ->
             is_Some (decimal_float tok))
          /\ read_lines decimal_float lalo (plate_abbrev2name arabia_only)
               (ln "plate boundaries of GSRM" :: [ln "> AR"])
             = Raise (AttributeError "'NoneType' object has no attribute 'append'")))
  /\ step decimal_float lalo (plate_abbrev2name arabia_only) st Str.nl
     = Ok (mkState (key st) (Some ([[10; 40]%float] ++ [[]])) (outlines st)).
Proof.
  intros st.
  apply (C5_whitespace_and_stray_lines decimal_float lalo (plate_abbrev2name arabia_only)
           st [[10; 40]%float] "12.0 42.0" ("  " +:+ Str.nl)
           (ln "plate boundaries of GSRM") Str.nl [ln "> AR"]); reflexivity.
Defined.

(** The two ways a first line that is not a header fails, and a blank
    line between two records, which makes the rows of the first record
    differ in length. *)
Example stray_line_cases :
  read_lines decimal_float lalo (plate_abbrev2name GSRM_V21_PMM)
    [ln "1.0 2.0"; ln "> AR"; ln "10.0 40.0"; ln "> AU"]
    = Raise (AttributeError "'NoneType' object has no attribute 'append'")
  /\ read_lines decimal_float lalo (plate_abbrev2name GSRM_V21_PMM)
       [Str.nl; ln "> AR"; ln "10.0 40.0"; ln "> AU"]
     = Raise (AttributeError "'NoneType' object has no attribute 'append'")
  /\ (exists msg,
        read_lines decimal_float lalo (plate_abbrev2name GSRM_V21_PMM)
          [ln "> AR"; ln "10.0 40.0"; Str.nl; ln "> AU"; ln "20.0 50.0"; ln "> AR"]
        = Raise (ValueError msg)).
Proof.
  split; [vm_compute; reflexivity|]. split; [vm_compute; reflexivity|].
  eexists. vm_compute. reflexivity.
Qed.

(** * Coordinate order *)



Section Swapped.
Context {F : Type}.
Variable astype_float : string -> option F.
Variable abbrev2name : gmap string string.




End Swapped.



(** The end-to-end lines read under both tags, once a further header
    closes the record. *)
Example end_to_end_both_orders :
  read_lines decimal_float lalo (plate_abbrev2name arabia_only)
    [ln "> AR"; ln "10.0 40.0"; ln "12.0 42.0"; ln "11.0 41.0"; ln "> AR"]
    = Ok {[ "Arabia" := [[10; 40]; [12; 42]; [11; 41]]%float ]}
  /\ read_lines decimal_float lola (plate_abbrev2name arabia_only)
       [ln "> AR"; ln "10.0 40.0"; ln "12.0 42.0"; ln "11.0 41.0"; ln "> AR"]
     = Ok {[ "Arabia" := [[40; 10]; [42; 12]; [41; 11]]%float ]}.
Proof. split; vm_compute; reflexivity. Qed.

(** * Selecting one plate *)

Lemma elem_of_values (m : gmap string string) (n : string) :
  n ∈ (map_to_list m).*2 <-> exists k, m !! k = Some n.
Proof.
  rewrite list_elem_of_fmap. split.
  - intros ([k n'] & -> & Hin). exists k. apply elem_of_map_to_list in Hin. exact Hin.
  - intros (k & Hk). exists (k, n). split; [reflexivity|]. apply elem_of_map_to_list. exact Hk.
Qed.

Lemma dict_get_Ok {V : Type} (d : list (string * V)) (k : string) (v : V) :
  dict_get d k = Ok v -> (k, v) ∈ d.
Proof.
  induction d as [|[k' v'] d IH]; simpl; [discriminate|].
  destruct (String.eqb_spec k' k) as [->|Hne].
  - intros [= ->]. apply list_elem_of_here.
  - intros Hd. apply list_elem_of_further, IH, Hd.
Qed.

Lemma dict_get_Raise {V : Type} (d : list (string * V)) (k : string) (e : exn) :
  dict_get d k = Raise e -> e = KeyError k.
Proof.
  induction d as [|[k' v'] d IH]; simpl.
  - intros [= <-]. reflexivity.
  - destruct (String.eqb k' k); [discriminate | exact IH].
Qed.

Section OutlineKeys.
Context {F : Type}.
Variable astype_float : string -> option F.
Variable order : coord_order.
Variable abbrev2name : gmap string string.

Lemma commit_keys_named (st : state F) (outs : gmap string (list (list F))) :
  keys_named abbrev2name (outlines st) -> commit abbrev2name st = Ok outs -> keys_named abbrev2name outs.
Proof.
  intros Hinv. unfold commit.
  destruct (key st) as [k|]; [|intros [= <-]; exact Hinv].
  destruct (vertices st) as [[|v vs]|]; try (intros [= <-]; exact Hinv).
  destruct (Str.truthy k); [|intros [= <-]; exact Hinv].
  generalize (np_array (v :: vs)). intros na.
  unfold map_get. destruct (abbrev2name !! k) as [pname|] eqn:Ek; simpl; [|discriminate].
  destruct na as [arr|e]; simpl; [|discriminate].
  intros [= <-] n. destruct (decide (pname = n)) as [<-|Hne].
  - intros _. exists k. exact Ek.
  - rewrite lookup_insert_ne by exact Hne. apply Hinv.
Qed.

Lemma step_keys_named (st st' : state F) (line : string) :
  keys_named abbrev2name (outlines st) -> step astype_float order abbrev2name st line = Ok st' ->
  keys_named abbrev2name (outlines st').
Proof.
  intros Hinv. unfold step. destruct (is_header line).
  - destruct (commit abbrev2name st) as [outs|e] eqn:Ec; simpl; [|discriminate].
    destruct (header_key line) as [k|e]; simpl; [|discriminate].
    intros [= <-]. simpl. apply (commit_keys_named _ _ Hinv Ec).
  - destruct (vertex astype_float order line) as [v|e]; simpl; [|discriminate].
    destruct (vertices st); [|discriminate]. intros [= <-]. exact Hinv.
Qed.

Lemma read_lines_keys_named (lines : list string) (outs : gmap string (list (list F))) :
  read_lines astype_float order abbrev2name lines = Ok outs -> keys_named abbrev2name outs.
Proof.
  unfold read_lines. intros Hr. apply bind_Ok in Hr. destruct Hr as (st & Hst & [= <-]).
  assert (Hinit : keys_named abbrev2name (outlines (@init F))).
  { intros n [x Hx]. simpl in Hx. rewrite lookup_empty in Hx. discriminate. }
  revert Hst Hinit. generalize (@init F). induction lines as [|l lines IH]; intros s0; simpl.
  - intros [= <-] Hinv. exact Hinv.
  - destruct (step astype_float order abbrev2name s0 l) as [s1|e] eqn:E; simpl; [|discriminate].
    intros Hst Hinv. apply (IH _ Hst). apply (step_keys_named _ _ _ Hinv E).
Qed.

End OutlineKeys.

(** The abbreviations of both tables are pairwise distinct. *)
Lemma GSRM_abbrevs_distinct :
  NoDup ((fun kv : string * Tag => Str.upper (Abbrev kv.2)) <$> GSRM_V21_PMM).
Proof. apply (bool_decide_unpack _). vm_compute. reflexivity. Qed.

Lemma MORVEL_abbrevs_distinct :
  NoDup ((fun kv : string * Tag => Str.upper (Abbrev kv.2)) <$> NNR_MORVEL56_PMM).
Proof. apply (bool_decide_unpack _). vm_compute. reflexivity. Qed.

Lemma select_model_distinct (pmm_name name : string) (pmm_dict : list (string * Tag)) :
  select_model pmm_name = Ok (name, pmm_dict) ->
  NoDup ((fun kv : string * Tag => Str.upper (Abbrev kv.2)) <$> pmm_dict).
Proof.
  unfold select_model. destruct (Str.contains pmm_name "GSRM").
  - intros [= <- <-]. apply GSRM_abbrevs_distinct.
  - destruct (Str.contains pmm_name "MORVEL"); [|discriminate].
    intros [= <- <-]. apply MORVEL_abbrevs_distinct.
Qed.

Lemma select_plate_lookup {F P : Type} (astype_float : string -> option F)
    (geometry_Polygon : list (list F) -> result P)
    (order : coord_order) (pmm_name name : string) (pmm_dict : list (string * Tag))
    (lines : list string) (outs : gmap string (list (list F))) (file p : string) :
  select_model pmm_name = Ok (name, pmm_dict) ->
  read_lines astype_float order (plate_abbrev2name pmm_dict) lines = Ok outs ->
  select_plate geometry_Polygon pmm_dict (plate_abbrev2name pmm_dict) file outs p
  = match outs !! p with
    | Some shell => poly ← geometry_Polygon shell; Ok (Polygon poly)
    | None => Raise (KeyError p)
    end.
Proof.
  intros Hmodel Hread.
  pose proof (select_model_distinct _ _ _ Hmodel) as Hnd.
  unfold select_plate. case_bool_decide as Hval.
  - unfold map_get. destruct (outs !! p); reflexivity.
  - rewrite elem_of_values in Hval.
    destruct (outs !! p) eqn:E.
    + exfalso. apply Hval. apply (read_lines_keys_named _ _ _ _ _ Hread). eauto.
    + destruct (dict_get pmm_dict p) as [tag|e] eqn:Ed.
      * exfalso. apply Hval. apply dict_get_Ok in Ed.
        exists (Str.upper (Abbrev tag)). apply (abbrev2name_unique _ _ _ Hnd Ed).
      * rewrite (dict_get_Raise _ _ _ Ed). reflexivity.
Qed.

Lemma ring_Polygon_raises (shell : list (list float)) (e : exn) :
  ring_Polygon shell = Raise e -> is_LookupError e = false.
Proof.
  unfold ring_Polygon.
  assert (Hrows : forall l e', convert_all row_pair l = Raise e' -> is_LookupError e' = false).
  { intros l. induction l as [|r l IH]; intros e'; cbn [convert_all]; [discriminate|].
    destruct (row_pair r) as [v|e0] eqn:Er.
    - cbn [mbind result_bind bind].
      destruct (convert_all row_pair l) as [vs|e1]; [discriminate|].
      intros [= <-]. apply (IH e1 eq_refl).
    - intros [= <-]. unfold row_pair in Er.
      destruct r as [|x [|y [|z [|? ?]]]]; try discriminate; injection Er as <-; reflexivity. }
  destruct (convert_all row_pair shell) as [vs|e0] eqn:Ev.
  - cbn [mbind result_bind bind].
    match goal with |- (if ?b then _ else _) = _ -> _ => destruct b end;
      [discriminate | intros [= <-]; reflexivity].
  - intros [= <-]. apply (Hrows _ _ Ev).
Qed.

(** C7 as stated fails: [Arabia] is a key of the parsed outlines, with one
    vertex, and selecting it does not return a polygon: the polygon
    constructor raises [ValueError]. *)
Lemma C7_one_vertex_outline_raises :
  let readlines := fun _ : string => Ok [ln "> AR"; ln "40.0 10.0"; ln "> AU"] in
  read_plate_outline decimal_float ring_Polygon "/data" readlines "GSRM" None
    = Ok (Outlines {[ "Arabia" := [[10; 40]%float] ]})
  /\ read_plate_outline decimal_float ring_Polygon "/data" readlines "GSRM" (Some "Arabia")
     = Raise (ValueError "A linearring requires at least 4 coordinates.").
Proof. split; vm_compute; reflexivity. Qed.

(** C7, amended. Selecting the outline of plate [p] after the file has
    been read (lines 83-89, entered for a non-empty name) raises a
    [LookupError], the [KeyError] of [p], exactly when [p] is not a key of
    the parsed outlines. When [p] is a key, the outcome is that of the
    polygon constructor on the vertices stored under [p]: the polygon, or
    the constructor's own exception, which is no [LookupError]. *)
Theorem C7_select_plate {F P : Type} (astype_float : string -> option F)
    (geometry_Polygon : list (list F) -> result P)
    (order : coord_order) (pmm_name name : string) (pmm_dict : list (string * Tag))
    (lines : list string) (outs : gmap string (list (list F)))
    (plate_boundary_file p : string) :
  select_model pmm_name = Ok (name, pmm_dict) ->
  read_lines astype_float order (plate_abbrev2name pmm_dict) lines = Ok outs ->
  (forall shell e, geometry_Polygon shell = Raise e -> is_LookupError e = false) ->
  select_plate geometry_Polygon pmm_dict (plate_abbrev2name pmm_dict)
    plate_boundary_file outs p
    = match outs !! p with
      | Some shell => poly ← geometry_Polygon shell; Ok (Polygon poly)
      | None => Raise (KeyError p)
      end
  /\ ((exists e, select_plate geometry_Polygon pmm_dict (plate_abbrev2name pmm_dict)
                   plate_boundary_file outs p = Raise e
                 /\ is_LookupError e = true)
      <-> outs !! p = None).
Proof.
  intros Hmodel Hread Hctor.
  pose proof (select_plate_lookup astype_float geometry_Polygon order pmm_name name
                pmm_dict lines outs plate_boundary_file p Hmodel Hread) as Hsel.
  split; [exact Hsel|]. rewrite Hsel. destruct (outs !! p) as [shell|]; split.
  - intros (e & He & Hl).
    destruct (geometry_Polygon shell) as [poly|e'] eqn:Eg; [discriminate|].
    injection He as <-. rewrite (Hctor _ _ Eg) in Hl. discriminate.
  - discriminate.
  - reflexivity.
  - intros _. exists (KeyError p). split; reflexivity.
Qed.

Lemma C7_select_plate_witness :
  let lines := [ln "> AR"; ln "40.0 10.0"; ln "42.0 12.0"; ln "41.0 11.0"; ln "> AU"] in
  let outs : gmap string (list (list float)) :=
    {[ "Arabia" := [[10; 40]; [12; 42]; [11; 41]]%float ]} in
  select_plate ring_Polygon GSRM_V21_PMM (plate_abbrev2name GSRM_V21_PMM)
    "plate_outlines.lola" outs "Australia"
    = match outs !! "Australia" with
      | Some shell => poly ← ring_Polygon shell; Ok (Polygon poly)
      | None => Raise (KeyError "Australia")
      end
  /\ ((exists e, select_plate ring_Polygon GSRM_V21_PMM (plate_abbrev2name GSRM_V21_PMM)
                   "plate_outlines.lola" outs "Australia" = Raise e
                 /\ is_LookupError e = true)
      <-> outs !! "Australia" = None).
Proof.
  intros lines outs.
  apply (C7_select_plate decimal_float ring_Polygon lola "GSRM" "GSRM" GSRM_V21_PMM
           lines outs "plate_outlines.lola" "Australia").
  - reflexivity.
  - vm_compute. reflexivity.
  - apply ring_Polygon_raises.
Defined.

(** The outcomes on one file: a plate of the catalog that the file holds,
    one that it does not hold, and a name outside the catalog. *)
Example select_plate_cases :
  let readlines := fun _ : string =>
    Ok [ln "> AR"; ln "40.0 10.0"; ln "42.0 12.0"; ln "41.0 11.0"; ln "> AU"] in
  read_plate_outline decimal_float ring_Polygon "/data" readlines "GSRM" (Some "Arabia")
    = Ok (Polygon (mkRing [(10, 40); (12, 42); (11, 41)]%float))
  /\ read_plate_outline decimal_float ring_Polygon "/data" readlines "GSRM" (Some "Australia")
     = Raise (KeyError "Australia")
  /\ read_plate_outline decimal_float ring_Polygon "/data" readlines "GSRM" (Some "Atlantis")
     = Raise (KeyError "Atlantis").
Proof. vm_compute. repeat split; reflexivity. Qed.

(** * The interior sampler *)

Lemma mask_flags {A B : Type} (f : A * B -> bool) (a : list A) (b : list B) :
  length a = length b ->
  Np.mask a (map f (zip a b)) = map fst (List.filter f (zip a b))
  /\ Np.mask b (map f (zip a b)) = map snd (List.filter f (zip a b)).
Proof.
  revert b. induction a as [|x a IH]; intros [|y b] Hlen; simpl in *; try discriminate.
  - split; reflexivity.
  - injection Hlen as Hlen. destruct (IH b Hlen) as [Ha Hb].
    destruct (f (x, y)); simpl; rewrite Ha, Hb; split; reflexivity.
Qed.

Lemma meshgrid_flat_length (x y : list float) :
  length (fst (Np.meshgrid_flat x y)) = length (snd (Np.meshgrid_flat x y)).
Proof.
  unfold Np.meshgrid_flat. simpl. induction y as [|b y IH]; simpl; [reflexivity|].
  rewrite !length_app, IH, !length_map. reflexivity.
Qed.

Lemma zip_fst_snd {A B : Type} (l : list (A * B)) : zip (map fst l) (map snd l) = l.
Proof. induction l as [|[a b] l IH]; simpl; [|rewrite IH]; reflexivity. Qed.

Section SamplerFacts.
Context {P : Type} `{Shapely P}.

Lemma candidates_lattice (polygon_obj : P) (ny nx : nat)
    (lat_lo lat_hi lon_lo lon_hi : float) :
  Np.min (map fst (exterior_coords polygon_obj)) = Ok lat_lo ->
  Np.max (map fst (exterior_coords polygon_obj)) = Ok lat_hi ->
  Np.min (map snd (exterior_coords polygon_obj)) = Ok lon_lo ->
  Np.max (map snd (exterior_coords polygon_obj)) = Ok lon_hi ->
  candidates polygon_obj ny nx = Ok (lattice lat_lo lat_hi lon_lo lon_hi ny nx).
Proof.
  intros H1 H2 H3 H4. unfold candidates. rewrite H1, H2, H3, H4.
  unfold mbind, result_bind, bind. cbv beta iota. unfold lattice.
  destruct (Np.meshgrid_flat (Np.linspace lat_lo lat_hi ny) (Np.linspace lon_lo lon_hi nx))
    as [cl cn]. reflexivity.
Qed.

(** The sampler returns the candidate points that [contains] accepts, in
    the order of the candidates, as two parallel arrays. *)
Lemma sample_of_candidates (polygon_obj : P) (ny nx : nat) :
  _sample_coords_within_polygon polygon_obj ny nx
  = (cand ← candidates polygon_obj ny nx;
     Ok (map fst (List.filter (contains polygon_obj) cand),
         map snd (List.filter (contains polygon_obj) cand))).
Proof.
  unfold _sample_coords_within_polygon, candidates.
  destruct (Np.min (map fst (exterior_coords polygon_obj))) as [a|e]; [|reflexivity].
  destruct (Np.max (map fst (exterior_coords polygon_obj))) as [b|e]; [|reflexivity].
  destruct (Np.min (map snd (exterior_coords polygon_obj))) as [c|e]; [|reflexivity].
  destruct (Np.max (map snd (exterior_coords polygon_obj))) as [d|e]; [|reflexivity].
  unfold mbind, result_bind, bind. cbv beta iota.
  pose proof (meshgrid_flat_length (Np.linspace a b ny) (Np.linspace c d nx)) as Hlen.
  destruct (Np.meshgrid_flat (Np.linspace a b ny) (Np.linspace c d nx)) as [cl cn].
  cbn [fst snd] in Hlen.
  destruct (mask_flags (contains polygon_obj) cl cn Hlen) as [Ha Hb].
  rewrite Ha, Hb. reflexivity.
Qed.

Lemma filter_none {A : Type} (f : A -> bool) (l : list A) :
  List.filter f l = [] <-> forallb (fun a => negb (f a)) l = true.
Proof.
  induction l as [|a l IH]; simpl; [split; reflexivity|].
  destruct (f a); simpl; [split; discriminate | exact IH].
Qed.

End SamplerFacts.

Section SquareSample.
Context {P : Type} `{Shapely P}.

(** Whatever the polygon and the resolution, the two returned arrays have
    one length and hold only points that [contains] accepts. *)
Lemma sample_sound (polygon_obj : P) (ny nx : nat) (lats lons : list float) :
  _sample_coords_within_polygon polygon_obj ny nx = Ok (lats, lons) ->
  length lats = length lons
  /\ forall c, In c (zip lats lons) -> contains polygon_obj c = true.
Proof.
  rewrite sample_of_candidates. intros Hs.
  apply bind_Ok in Hs. destruct Hs as (cand & _ & Hs). injection Hs as <- <-.
  split; [rewrite !length_map; reflexivity|].
  intros p. rewrite zip_fst_snd. intros Hin. apply filter_In in Hin. apply Hin.
Qed.

(** C8. For the square (0,0)-(0,10)-(10,10)-(10,0) and [ny = nx = 11] the
    candidate lattice is the 121 points of [0, 10] x [0, 10] with both end
    points on each axis; the sampler returns, as two arrays of one length,
    exactly the lattice points that the containment test accepts, so (5, 5)
    is returned as soon as the test accepts it and (20, 20) never is. A
    polygon none of whose candidate points is accepted gives two empty
    arrays, not an error. *)
Theorem C8_square_sample (sq other : P) (ny nx : nat) (rejected : list (float * float)) :
  exterior_coords sq = square_ring ->
  contains sq (5, 5)%float = true ->
  candidates other ny nx = Ok rejected ->
  forallb (fun c => negb (contains other c)) rejected = true ->
  let cand := lattice 0 10 0 10 11 11 in
  (candidates sq 11 11 = Ok cand
   /\ length cand = 121%nat /\ forallb in_box cand = true
   /\ cand !! 0%nat = Some (0, 0)%float /\ cand !! 120%nat = Some (10, 10)%float)
  /\ (exists lats lons,
        _sample_coords_within_polygon sq 11 11 = Ok (lats, lons)
        /\ zip lats lons = List.filter (contains sq) cand
        /\ length lats = length lons
        /\ (forall c, In c (zip lats lons) -> contains sq c = true)
        /\ In (5, 5)%float (zip lats lons)
        /\ ~ In (20, 20)%float (zip lats lons))
  /\ _sample_coords_within_polygon other ny nx = Ok ([], []).
Proof.
  intros Hring H55 Hother Hrej cand.
  assert (Hbox : forallb in_box cand = true) by (vm_compute; reflexivity).
  assert (Hcand : candidates sq 11 11 = Ok cand).
  { apply candidates_lattice; rewrite Hring; vm_compute; reflexivity. }
  assert (Hs : _sample_coords_within_polygon sq 11 11
               = Ok (map fst (List.filter (contains sq) cand),
                     map snd (List.filter (contains sq) cand))).
  { rewrite sample_of_candidates, Hcand. reflexivity. }
  split; [|split].
  - split; [exact Hcand|]. repeat split; try exact Hbox; vm_compute; reflexivity.
  - exists (map fst (List.filter (contains sq) cand)),
           (map snd (List.filter (contains sq) cand)).
    split; [exact Hs|]. rewrite zip_fst_snd.
    split; [reflexivity|]. split; [rewrite !length_map; reflexivity|].
    split; [intros c Hc; apply filter_In in Hc; apply Hc|]. split.
    + apply filter_In. split; [|exact H55].
      apply (nth_error_In cand 60). vm_compute. reflexivity.
    + intros Hin. apply filter_In in Hin. destruct Hin as [Hin _].
      rewrite forallb_forall in Hbox. specialize (Hbox _ Hin).
      vm_compute in Hbox. discriminate Hbox.
  - rewrite sample_of_candidates, Hother. cbn [mbind result_bind bind].
    apply filter_none in Hrej. rewrite Hrej. reflexivity.
Qed.

End SquareSample.

Lemma C8_square_sample_witness :
  let sq := mkRing square in
  let cand := lattice 0 10 0 10 11 11 in
  (@candidates _ ring_shapely sq 11 11 = Ok cand
   /\ length cand = 121%nat /\ forallb in_box cand = true
   /\ cand !! 0%nat = Some (0, 0)%float /\ cand !! 120%nat = Some (10, 10)%float)
  /\ (exists lats lons,
        @_sample_coords_within_polygon _ ring_shapely sq 11 11 = Ok (lats, lons)
        /\ zip lats lons = List.filter (even_odd sq) cand
        /\ length lats = length lons
        /\ (forall c, In c (zip lats lons) -> even_odd sq c = true)
        /\ In (5, 5)%float (zip lats lons)
        /\ ~ In (20, 20)%float (zip lats lons))
  /\ @_sample_coords_within_polygon _ ring_shapely sq 1 1 = Ok ([], []).
Proof.
  intros sq cand.
  apply (@C8_square_sample _ ring_shapely sq sq 1 1 [(0, 0)%float]).
  - reflexivity.
  - vm_compute. reflexivity.
  - vm_compute. reflexivity.
  - vm_compute. reflexivity.
Defined.

(** With the even-odd rule the sampler keeps the 81 points strictly inside
    the square, in lattice order; at one sample per axis the only
    candidate is the corner (0, 0), which is not inside. *)
Example square_sample_even_odd :
  (exists lats lons,
     @_sample_coords_within_polygon _ ring_shapely (mkRing square) 11 11 = Ok (lats, lons)
     /\ length lats = 81%nat /\ length lons = 81%nat
     /\ lats !! 0%nat = Some 1%float /\ lons !! 0%nat = Some 1%float
     /\ lats !! 1%nat = Some 2%float /\ lons !! 1%nat = Some 1%float)
  /\ @candidates _ ring_shapely (mkRing square) 1 1 = Ok [(0, 0)%float]
  /\ @_sample_coords_within_polygon _ ring_shapely (mkRing square) 1 1 = Ok ([], []).
Proof.
  split; [|split; vm_compute; reflexivity].
  eexists. eexists. split; [vm_compute; reflexivity|].
  repeat split; reflexivity.
Qed.

(** * The quiver correction *)

Section CorrectorIndex.
Context {T : Type} `{Arith T}.

(** The correction acts index by index. *)
Lemma correct_lookup (sample_lats ve vn : list T) (i : nat) (lat e n : T) :
  sample_lats !! i = Some lat -> ve !! i = Some e -> vn !! i = Some n ->
  let norm := hypot2 e n in
  let e_adj := div e (cos_deg lat) in
  let renorm := div (hypot2 e_adj n) norm in
  (correct sample_lats ve vn).1 !! i = Some (div e_adj renorm)
  /\ (correct sample_lats ve vn).2 !! i = Some (div n renorm).
Proof.
  intros Hlat He Hn norm e_adj renorm. unfold correct. cbn [fst snd].
  rewrite !lookup_zip_with, He, Hn, Hlat. split; reflexivity.
Qed.

End CorrectorIndex.


(** * Degenerate samples, in binary64 *)

Lemma zero_div_cases (c : float) :
  PrimFloat.div 0%float c = 0%float \/ PrimFloat.div 0%float c = (-0)%float
  \/ PrimFloat.div 0%float c = nan.
Proof.
  pose proof (FloatAxioms.div_spec 0%float c) as Hd.
  rewrite <- (SF2Prim_Prim2SF (PrimFloat.div 0%float c)), Hd.
  destruct (Prim2SF c) as [s|s| |s m e]; try destruct s; cbv; auto.
Qed.



(** C9. The claim: a zero raw vector comes out as a zero vector, through a
    special case. The code has no special case: at a sample with
    [ve = vn = 0] it divides by [norm = 0], and both corrected components
    are NaN, at every latitude and whatever the cosine evaluates to. *)
Theorem C9_zero_vector_gives_nan (np_cos_deg : float -> float) (lat : float) :
  @correct float (float_arith np_cos_deg) [lat] [0%float] [0%float] = ([nan], [nan]).
Proof.
  unfold correct, hypot2. cbn [zip_with float_arith add mul div sqrt cos_deg].
  destruct (zero_div_cases (np_cos_deg lat)) as [Hz|[Hz|Hz]];
    rewrite Hz; vm_compute; reflexivity.
Qed.

(** * Further properties of the reader *)

Lemma split_on_from_step (sep : string) (c : ascii) (s : string) (skip : nat) :
  Str.split_on_from sep (String c s) skip =
  match skip with
  | S k => Str.split_on_from sep s k
  | O =>
      if String.prefix sep (String c s)
      then EmptyString :: Str.split_on_from sep s (String.length sep - 1)
      else match Str.split_on_from sep s 0 with
           | w :: ws => String c w :: ws
           | [] => [String c EmptyString]
           end
  end.
Proof. reflexivity. Qed.

Lemma split_on_from_cons (sep s : string) (skip : nat) :
  exists w ws, Str.split_on_from sep s skip = w :: ws.
Proof.
  revert skip. induction s as [|c s IH]; intros skip.
  - simpl. eauto.
  - rewrite split_on_from_step. destruct skip as [|k]; [|apply IH].
    destruct (String.prefix sep (String c s)); [eauto|].
    destruct (IH 0%nat) as (w & ws & ->). eauto.
Qed.

Lemma split_on_marked (sep line : string) :
  String.prefix sep line = true -> sep <> EmptyString ->
  exists k, index (Str.split_on sep line) 1 = Ok k.
Proof.
  intros Hp Hsep. destruct line as [|c s].
  - destruct sep; [contradiction | discriminate].
  - unfold Str.split_on. rewrite split_on_from_step, Hp.
    destruct (split_on_from_cons sep s (String.length sep - 1)) as (w & ws & ->).
    exists w. reflexivity.
Qed.

Lemma header_key_defined (line : string) : exists k, header_key line = Ok k.
Proof.
  unfold header_key.
  assert (Hk : exists k0,
    (if Str.startswith line "> " then index (Str.split_on "> " line) 1
     else if Str.startswith line "# " then index (Str.split_on "# " line) 1
     else Ok line) = Ok k0).
  { unfold Str.startswith.
    destruct (String.prefix "> " line) eqn:E1; [apply split_on_marked; [exact E1 | discriminate]|].
    destruct (String.prefix "# " line) eqn:E2; [apply split_on_marked; [exact E2 | discriminate]|].
    eauto. }
  destruct Hk as (k0 & ->). simpl.
  destruct (Str.endswith k0 Str.nl); [|eauto].
  unfold Str.split_on. destruct (split_on_from_cons Str.nl k0 0) as (w & ws & ->).
  exists w. reflexivity.
Qed.

(** The abbreviation of a line is always defined: the two indexings of
    lines 62-70 never run past the end of the split list, so no header
    line makes the reader raise [IndexError]. *)
Theorem header_key_total (line : string) :
  (exists k, header_key line = Ok k)
  /\ (forall msg, header_key line <> Raise (IndexError msg)).
Proof.
  destruct (header_key_defined line) as (k & Hk). split; [eauto|].
  intros msg. rewrite Hk. discriminate.
Qed.

Section ReaderMore.
Context {F : Type}.
Variable astype_float : string -> option F.
Variable order : coord_order.
Variable abbrev2name : gmap string string.

Local Abbreviation stepM := (step astype_float order abbrev2name).
Local Abbreviation read_linesM := (read_lines astype_float order abbrev2name).

Lemma for_each_two_headers (h1 h2 : string) (post : list string) (st : state F) :
  is_header h1 = true -> is_header h2 = true ->
  for_each stepM (h1 :: h2 :: post) st = for_each stepM (h2 :: post) st.
Proof.
  intros H1 H2. cbn [for_each]. rewrite !step_header by assumption.
  destruct (commit abbrev2name st) as [outs|e]; [|reflexivity].
  destruct (header_key_defined h1) as (k1 & ->).
  destruct (header_key_defined h2) as (k2 & Hk2). rewrite Hk2. cbn.
  rewrite step_header by assumption. rewrite Hk2. reflexivity.
Qed.

(** A header line directly followed by another header line contributes
    nothing: deleting it changes neither the dictionary nor the error. *)
Theorem header_without_vertices_dropped (pre post : list string) (h1 h2 : string) :
  is_header h1 = true -> is_header h2 = true ->
  read_linesM (pre ++ h1 :: h2 :: post) = read_linesM (pre ++ h2 :: post).
Proof.
  intros H1 H2. unfold read_lines. rewrite !for_each_app.
  destruct (for_each stepM pre init) as [st|e]; [|reflexivity].
  cbn [mbind result_bind bind]. rewrite (for_each_two_headers _ _ _ _ H1 H2). reflexivity.
Qed.

Lemma np_array_Ok (rows arr : list (list F)) :
  np_array rows = Ok arr ->
  arr = rows /\ exists w, Forall (fun r => length r = w) rows.
Proof.
  destruct rows as [|r rs]; simpl.
  - intros [= <-]. split; [reflexivity|]. exists 0%nat. constructor.
  - destruct (forallb (fun r' => (length r' =? length r)%nat) rs) eqn:E; [|discriminate].
    intros [= <-]. split; [reflexivity|]. exists (length r).
    constructor; [reflexivity|]. apply Forall_forall. intros r' Hin.
    rewrite forallb_forall in E. apply Nat.eqb_eq, E. apply list_elem_of_In, Hin.
Qed.

Lemma state_after_header (pre : list string) (hk k : string) (st : state F) :
  for_each stepM (pre ++ [hk]) init = Ok st ->
  is_header hk = true -> header_key hk = Ok k ->
  key st = Some k /\ vertices st = Some [].
Proof.
  intros Hpre Hhk Hkey. rewrite for_each_app in Hpre.
  apply bind_Ok in Hpre. destruct Hpre as (s0 & _ & Hs).
  cbn [for_each] in Hs. rewrite (step_header _ _ _ _ _ Hhk), Hkey in Hs.
  destruct (commit abbrev2name s0); cbn in Hs; [|discriminate].
  injection Hs as <-. split; reflexivity.
Qed.

(** A record whose abbreviation is in the table (header, coordinate lines
    of one length, then a further header) is stored under the plate name,
    its vertices in file order, replacing an earlier outline of that plate
    and leaving the other plates as they were. *)
Theorem record_committed (pre : list string) (hk : string) (data : list string)
    (h : string) (st : state F) (k pname : string) (verts : list (list F)) :
  for_each stepM (pre ++ [hk]) init = Ok st ->
  is_header hk = true -> header_key hk = Ok k -> k <> EmptyString ->
  abbrev2name !! k = Some pname ->
  data <> [] ->
  Forall2 (fun l v => is_header l = false /\ vertex astype_float order l = Ok v) data verts ->
  np_array verts = Ok verts ->
  is_header h = true ->
  read_linesM (pre ++ hk :: data ++ [h]) = Ok (<[pname := verts]> (outlines st)).
Proof.
  intros Hpre Hhk Hkey Hne Hsome Hdata Hrun Harr Hh.
  destruct (state_after_header _ _ _ _ Hpre Hhk Hkey) as [Hk Hv].
  unfold read_lines.
  replace (pre ++ hk :: data ++ [h]) with ((pre ++ [hk]) ++ data ++ [h])
    by (rewrite <- app_assoc; reflexivity).
  rewrite for_each_app, Hpre. cbn [mbind result_bind bind].
  rewrite for_each_app, (data_lines_run _ _ _ _ _ Hrun st [] Hv).
  cbn [mbind result_bind bind for_each app].
  rewrite (step_header _ _ _ _ _ Hh). unfold commit. cbn [key vertices outlines].
  rewrite Hk. destruct verts as [|v vs].
  { apply Forall2_nil_inv_r in Hrun. contradiction. }
  unfold Str.truthy. destruct (String.eqb_spec k EmptyString) as [|_]; [contradiction|].
  cbn [negb]. unfold map_get. rewrite Hsome. cbn [mbind result_bind bind].
  rewrite Harr. cbn [mbind result_bind bind].
  destruct (header_key_defined h) as (k' & ->). reflexivity.
Qed.

Lemma commit_rows_regular (st : state F) (outs : gmap string (list (list F))) :
  rows_regular (outlines st) -> commit abbrev2name st = Ok outs -> rows_regular outs.
Proof.
  intros Hinv. unfold commit.
  destruct (key st) as [k|]; [|intros [= <-]; exact Hinv].
  destruct (vertices st) as [[|v vs]|]; try (intros [= <-]; exact Hinv).
  destruct (Str.truthy k); [|intros [= <-]; exact Hinv].
  destruct (map_get abbrev2name k) as [pname|e]; [|discriminate].
  cbn [mbind result_bind bind].
  destruct (np_array (v :: vs)) as [arr|e] eqn:Ea; [|discriminate].
  cbn [mbind result_bind bind]. intros [= <-] n rows.
  destruct (np_array_Ok _ _ Ea) as [-> Hw].
  destruct (decide (pname = n)) as [<-|Hne].
  - rewrite lookup_insert_eq. intros [= <-]. split; [discriminate | exact Hw].
  - rewrite lookup_insert_ne by exact Hne. apply Hinv.
Qed.

Lemma for_each_rows_regular (lines : list string) (st st' : state F) :
  rows_regular (outlines st) -> for_each stepM lines st = Ok st' ->
  rows_regular (outlines st').
Proof.
  revert st. induction lines as [|l lines IH]; intros st Hinv; cbn [for_each].
  - intros [= <-]. exact Hinv.
  - destruct (stepM st l) as [s1|e] eqn:E; [|discriminate].
    cbn [mbind result_bind bind]. apply IH.
    unfold step in E. destruct (is_header l).
    + destruct (commit abbrev2name st) as [outs|e] eqn:Ec; [|discriminate].
      cbn [mbind result_bind bind] in E.
      destruct (header_key l) as [k|e]; [|discriminate].
      injection E as <-. apply (commit_rows_regular _ _ Hinv Ec).
    + destruct (vertex astype_float order l) as [v|e]; [|discriminate].
      cbn [mbind result_bind bind] in E.
      destruct (vertices st); [|discriminate]. injection E as <-. exact Hinv.
Qed.

End ReaderMore.

(** Whatever the file, a dictionary returned by the reader has only plate
    names of the model table as keys, and every outline it holds has at
    least one vertex and rows of one length. *)
Theorem outlines_well_formed {F : Type} (astype_float : string -> option F)
    (order : coord_order) (pmm_dict : list (string * Tag)) (lines : list string)
    (outs : gmap string (list (list F))) (n : string) (rows : list (list F)) :
  read_lines astype_float order (plate_abbrev2name pmm_dict) lines = Ok outs ->
  outs !! n = Some rows ->
  n ∈ pmm_dict.*1 /\ rows <> [] /\ exists w, Forall (fun r => length r = w) rows.
Proof.
  intros Hread Hn. split.
  - destruct (read_lines_keys_named _ _ _ _ _ Hread n) as (k & Hk); [eauto|].
    apply (abbrev2name_values _ _ _ Hk).
  - unfold read_lines in Hread. apply bind_Ok in Hread.
    destruct Hread as (st & Hst & [= <-]).
    assert (Hinit : rows_regular (outlines (@init F))).
    { intros n' rows' H. cbn [outlines init] in H. rewrite lookup_empty in H. discriminate H. }
    apply (for_each_rows_regular _ _ _ _ _ _ Hinit Hst n rows Hn).
Qed.

(** * The model tables and their boundary files *)

(** With pairwise distinct abbreviations the table sends the upper-cased
    abbreviation of every plate to that plate, and its values are exactly
    the plate names. *)
Theorem abbrev2name_round_trip (pmm_dict : list (string * Tag)) :
  NoDup ((fun kv : string * Tag => Str.upper (Abbrev kv.2)) <$> pmm_dict) ->
  (forall n t, (n, t) ∈ pmm_dict ->
     plate_abbrev2name pmm_dict !! Str.upper (Abbrev t) = Some n)
  /\ (forall n, (exists k, plate_abbrev2name pmm_dict !! k = Some n) <-> n ∈ pmm_dict.*1).
Proof.
  intros Hnd. split.
  - intros n t Hin. apply (abbrev2name_unique _ _ _ Hnd Hin).
  - intros n. split.
    + intros (k & Hk). apply (abbrev2name_values _ _ _ Hk).
    + intros Hin. apply list_elem_of_fmap in Hin. destruct Hin as ([n' t] & -> & Hin).
      exists (Str.upper (Abbrev t)). apply (abbrev2name_unique _ _ _ Hnd Hin).
Qed.

Lemma abbrev2name_round_trip_witness :
  (forall n t, (n, t) ∈ NNR_MORVEL56_PMM ->
     plate_abbrev2name NNR_MORVEL56_PMM !! Str.upper (Abbrev t) = Some n)
  /\ (forall n, (exists k, plate_abbrev2name NNR_MORVEL56_PMM !! k = Some n)
                <-> n ∈ NNR_MORVEL56_PMM.*1).
Proof.
  apply (abbrev2name_round_trip NNR_MORVEL56_PMM).
  apply (bool_decide_unpack _). vm_compute. reflexivity.
Defined.

(** When two plates of a table share an abbreviation up to case, the table
    keeps the later one. *)
Theorem abbrev2name_last_wins (pmm_dict : list (string * Tag)) (n : string) (t : Tag) :
  plate_abbrev2name (pmm_dict ++ [(n, t)]) !! Str.upper (Abbrev t) = Some n.
Proof.
  unfold plate_abbrev2name. rewrite foldl_app. cbn [foldl]. apply lookup_insert_eq.
Qed.

Lemma contains_step (c : ascii) (s sub : string) :
  Str.contains (String c s) sub = String.prefix sub (String c s) || Str.contains s sub.
Proof. reflexivity. Qed.

Lemma prefix_slash (t : string) : String.prefix "/" (String "/" t) = true.
Proof.
  rewrite prefix_cons. destruct (ascii_dec "/" "/"); [|contradiction]. apply prefix_empty.
Qed.

Lemma contains_slash_app (p t : string) :
  Str.contains (p +:+ String "/" t) "/" = true.
Proof.
  induction p as [|c p IH].
  - change (EmptyString +:+ String "/" t) with (String "/" t).
    rewrite contains_step, prefix_slash. reflexivity.
  - change (String c p +:+ String "/" t) with (String c (p +:+ String "/" t)).
    rewrite contains_step, IH. apply orb_true_r.
Qed.

Lemma basename_step (c : ascii) (p : string) :
  Str.basename (String c p) =
  if String.prefix "/" (String c p) then Str.basename p
  else if Str.contains p "/" then Str.basename p else String c p.
Proof. reflexivity. Qed.

(** [basename] drops everything up to the last slash. *)
Lemma basename_app (p t : string) :
  Str.basename (p +:+ String "/" t) = Str.basename t.
Proof.
  induction p as [|c p IH].
  - change (EmptyString +:+ String "/" t) with (String "/" t).
    rewrite basename_step, prefix_slash. reflexivity.
  - change (String c p +:+ String "/" t) with (String c (p +:+ String "/" t)).
    rewrite basename_step, contains_slash_app, IH.
    destruct (String.prefix "/" (String c (p +:+ String "/" t))); reflexivity.
Qed.

(** In every working directory the model fixes the coordinate order: the
    GSRM boundary file is read longitude first, the MORVEL file latitude
    first, and the extension check of lines 39-41 never fails. *)
Theorem model_fixes_order (cwd pmm_name name : string) (pmm_dict : list (string * Tag)) :
  select_model pmm_name = Ok (name, pmm_dict) ->
  exists file,
    dict_get (PLATE_BOUNDARY_FILE cwd) name = Ok file
    /\ order_of_file file = Ok (if Str.contains pmm_name "GSRM" then lola else lalo)
    /\ pmm_dict = (if Str.contains pmm_name "GSRM" then GSRM_V21_PMM else NNR_MORVEL56_PMM).
Proof.
  unfold select_model. destruct (Str.contains pmm_name "GSRM").
  - intros [= <- <-]. eexists. split; [reflexivity|]. split; [|reflexivity].
    unfold order_of_file, abspath_dot.
    change ("/" +:+ "plate_boundary/GSRM/plate_outlines.lola")
      with (String "/" "plate_boundary/GSRM/plate_outlines.lola").
    rewrite basename_app. reflexivity.
  - destruct (Str.contains pmm_name "MORVEL"); [|discriminate].
    intros [= <- <-]. eexists. split; [reflexivity|]. split; [|reflexivity].
    unfold order_of_file, abspath_dot.
    change ("/" +:+ "plate_boundary/MORVEL/plate_outlines.lalo")
      with (String "/" "plate_boundary/MORVEL/plate_outlines.lalo").
    rewrite basename_app. reflexivity.
Qed.

Lemma model_fixes_order_witness :
  exists file,
    dict_get (PLATE_BOUNDARY_FILE "/home/user/PyPMM") "GSRM" = Ok file
    /\ order_of_file file = Ok (if Str.contains "GSRMv2.1" "GSRM" then lola else lalo)
    /\ GSRM_V21_PMM
       = (if Str.contains "GSRMv2.1" "GSRM" then GSRM_V21_PMM else NNR_MORVEL56_PMM).
Proof.
  apply (model_fixes_order "/home/user/PyPMM" "GSRMv2.1" "GSRM" GSRM_V21_PMM).
  reflexivity.
Defined.

(** * One plate against all plates *)

(** Asking for one plate agrees with asking for all of them: the call with
    a plate name gives what the polygon constructor gives on the entry
    that the call without a name holds for it, raises [KeyError] for the
    name when there is no such entry, and raises what the call without a
    name raises. An empty name is read as no name. *)
Theorem one_plate_of_all {F P : Type} (astype_float : string -> option F)
    (geometry_Polygon : list (list F) -> result P)
    (cwd : string) (readlines : string -> result (list string))
    (pmm_name p : string) :
  Str.truthy p = true ->
  (forall outs,
     read_plate_outline astype_float geometry_Polygon cwd readlines pmm_name None
       = Ok (Outlines outs) ->
     read_plate_outline astype_float geometry_Polygon cwd readlines pmm_name (Some p)
     = match outs !! p with
       | Some shell => poly ← geometry_Polygon shell; Ok (Polygon poly)
       | None => Raise (KeyError p)
       end)
  /\ (forall e,
        read_plate_outline astype_float geometry_Polygon cwd readlines pmm_name None
          = Raise e ->
        read_plate_outline astype_float geometry_Polygon cwd readlines pmm_name (Some p)
          = Raise e)
  /\ read_plate_outline astype_float geometry_Polygon cwd readlines pmm_name
       (Some EmptyString)
     = read_plate_outline astype_float geometry_Polygon cwd readlines pmm_name None.
Proof.
  intros Hp. unfold read_plate_outline. rewrite Hp.
  destruct (select_model pmm_name) as [[name d]|e0] eqn:Em;
    [|repeat split; [discriminate | intros e H; exact H]].
  cbn [mbind result_bind bind].
  destruct (dict_get (PLATE_BOUNDARY_FILE cwd) name) as [file|e0];
    [|repeat split; [discriminate | intros e H; exact H]].
  cbn [mbind result_bind bind].
  destruct (order_of_file file) as [order|e0];
    [|repeat split; [discriminate | intros e H; exact H]].
  cbn [mbind result_bind bind].
  destruct (readlines file) as [lines|e0];
    [|repeat split; [discriminate | intros e H; exact H]].
  cbn [mbind result_bind bind].
  destruct (read_lines astype_float order (plate_abbrev2name d) lines) as [outs|e0] eqn:Er;
    [|repeat split; [discriminate | intros e H; exact H]].
  cbn [mbind result_bind bind]. repeat split.
  - intros outs' [= <-]. apply (select_plate_lookup _ _ _ _ _ _ _ _ _ _ Em Er).
  - discriminate.
Qed.

Lemma one_plate_of_all_witness :
  let readlines := fun _ : string => Ok [ln "> AR"; ln "40.0 10.0"; ln "> AU"] in
  (forall outs,
     read_plate_outline decimal_float ring_Polygon "/data" readlines "GSRM" None
       = Ok (Outlines outs) ->
     read_plate_outline decimal_float ring_Polygon "/data" readlines "GSRM" (Some "Arabia")
     = match outs !! "Arabia" with
       | Some shell => poly ← ring_Polygon shell; Ok (Polygon poly)
       | None => Raise (KeyError "Arabia")
       end)
  /\ (forall e,
        read_plate_outline decimal_float ring_Polygon "/data" readlines "GSRM" None
          = Raise e ->
        read_plate_outline decimal_float ring_Polygon "/data" readlines "GSRM" (Some "Arabia")
          = Raise e)
  /\ read_plate_outline decimal_float ring_Polygon "/data" readlines "GSRM"
       (Some EmptyString)
     = read_plate_outline decimal_float ring_Polygon "/data" readlines "GSRM" None.
Proof.
  intros readlines.
  apply (one_plate_of_all decimal_float ring_Polygon "/data" readlines "GSRM" "Arabia").
  reflexivity.
Defined.

(** Witnesses of the reader properties. *)

Lemma header_without_vertices_dropped_witness :
  read_lines decimal_float lalo (plate_abbrev2name arabia_only)
    ([ln "> AR"; ln "10.0 40.0"] ++ ln "> XX" :: ln "> AR" :: [ln "12.0 42.0"; ln "> AR"])
  = read_lines decimal_float lalo (plate_abbrev2name arabia_only)
      ([ln "> AR"; ln "10.0 40.0"] ++ ln "> AR" :: [ln "12.0 42.0"; ln "> AR"]).
Proof.
  apply (header_without_vertices_dropped decimal_float lalo (plate_abbrev2name arabia_only)
           [ln "> AR"; ln "10.0 40.0"] [ln "12.0 42.0"; ln "> AR"] (ln "> XX") (ln "> AR"));
    reflexivity.
Defined.

Lemma record_committed_witness :
  read_lines decimal_float lola (plate_abbrev2name GSRM_V21_PMM)
    ([] ++ ln "> AR" :: [ln "40.0 10.0"; ln "42.0 12.0"] ++ [ln "> AU"])
  = Ok (<["Arabia" := [[10; 40]; [12; 42]]%float]> ∅).
Proof.
  apply (record_committed decimal_float lola (plate_abbrev2name GSRM_V21_PMM)
           [] (ln "> AR") [ln "40.0 10.0"; ln "42.0 12.0"] (ln "> AU")
           (mkState (Some "AR") (Some []) ∅) "AR" "Arabia" [[10; 40]; [12; 42]]%float).
  - vm_compute. reflexivity.
  - reflexivity.
  - reflexivity.
  - discriminate.
  - vm_compute. reflexivity.
  - discriminate.
  - constructor; [split; vm_compute; reflexivity|].
    constructor; [split; vm_compute; reflexivity|]. constructor.
  - reflexivity.
  - reflexivity.
Defined.

Lemma outlines_well_formed_witness :
  "Arabia" ∈ GSRM_V21_PMM.*1 /\ [[10; 40]; [12; 42]]%float <> []
  /\ exists w, Forall (fun r : list float => length r = w) [[10; 40]; [12; 42]]%float.
Proof.
  apply (outlines_well_formed decimal_float lola GSRM_V21_PMM
           [ln "> AR"; ln "40.0 10.0"; ln "42.0 12.0"; ln "> AU"]
           {[ "Arabia" := [[10; 40]; [12; 42]]%float ]} "Arabia").
  - vm_compute. reflexivity.
  - vm_compute. reflexivity.
Defined.

(** * Further properties of the sampler *)

Lemma linspace_length (start stop : float) (num : nat) :
  length (Np.linspace start stop num) = num.
Proof.
  unfold Np.linspace.
  destruct (1 <? num)%nat; [rewrite length_insert|];
    destruct (0 <? num - 1)%nat;
    try destruct (PrimFloat.eqb _ _);
    rewrite !length_fmap; apply length_seq.
Qed.

(** [linspace] returns exactly [num] samples, none for [num = 0], and from
    two samples on the last one is [stop] itself, free of rounding. *)
Theorem linspace_shape (start stop : float) (num : nat) :
  length (Np.linspace start stop num) = num
  /\ Np.linspace start stop 0 = []
  /\ Np.linspace start stop (S (S num)) !! S num = Some stop.
Proof.
  split; [apply linspace_length|]. split; [reflexivity|].
  pose proof (linspace_length start stop (S (S num))) as Hl. revert Hl. unfold Np.linspace.
  change (1 <? S (S num))%nat with true. cbv iota.
  change (S (S num) - 1)%nat with (S num).
  rewrite length_insert. intros Hl.
  apply list_lookup_insert_eq. rewrite Hl. lia.
Qed.

Lemma concat_const_length {A B : Type} (x : list A) (y : list B) :
  length (concat (map (fun _ : B => x) y)) = (length y * length x)%nat.
Proof.
  induction y as [|b y IH]; simpl; [reflexivity|]. rewrite length_app, IH. reflexivity.
Qed.

(** The flattened grids are row-major with the first argument running
    fastest: position [i * len(x) + j] holds [x[j]] and [y[i]]. *)
Theorem meshgrid_flat_index (x y : list float) (i j : nat) (a b : float) :
  x !! j = Some a -> y !! i = Some b ->
  (Np.meshgrid_flat x y).1 !! (i * length x + j)%nat = Some a
  /\ (Np.meshgrid_flat x y).2 !! (i * length x + j)%nat = Some b.
Proof.
  intros Hx. unfold Np.meshgrid_flat. cbn [fst snd].
  pose proof (lookup_lt_Some _ _ _ Hx) as Hj.
  revert i. induction y as [|b0 y IH]; intros i Hy; [destruct i; discriminate|].
  cbn [map concat]. destruct i as [|i].
  - injection Hy as ->. cbn [Nat.mul Nat.add]. split.
    + rewrite lookup_app_l by exact Hj. exact Hx.
    + rewrite lookup_app_l by (rewrite length_map; exact Hj).
      change (map (fun _ : float => b) x) with ((fun _ : float => b) <$> x).
      rewrite list_lookup_fmap, Hx. reflexivity.
  - cbn [lookup] in Hy. destruct (IH i Hy) as [H1 H2].
    replace (S i * length x + j)%nat with (length x + (i * length x + j))%nat by lia.
    split.
    + rewrite lookup_app_r by lia.
      replace (length x + (i * length x + j) - length x)%nat with (i * length x + j)%nat by lia.
      exact H1.
    + rewrite lookup_app_r by (rewrite length_map; lia). rewrite length_map.
      replace (length x + (i * length x + j) - length x)%nat with (i * length x + j)%nat by lia.
      exact H2.
Qed.

Lemma meshgrid_flat_index_witness :
  (Np.meshgrid_flat [1; 2; 3]%float [10; 20]%float).1 !! (1 * length [1; 2; 3]%float + 2)%nat
    = Some 3%float
  /\ (Np.meshgrid_flat [1; 2; 3]%float [10; 20]%float).2 !! (1 * length [1; 2; 3]%float + 2)%nat
     = Some 20%float.
Proof.
  apply (meshgrid_flat_index [1; 2; 3]%float [10; 20]%float 1 2 3%float 20%float);
    reflexivity.
Defined.

Lemma lattice_length (lat_lo lat_hi lon_lo lon_hi : float) (ny nx : nat) :
  length (lattice lat_lo lat_hi lon_lo lon_hi ny nx) = (nx * ny)%nat.
Proof.
  unfold lattice, Np.meshgrid_flat. cbn [fst snd].
  pose proof (linspace_length lat_lo lat_hi ny) as Hy.
  pose proof (linspace_length lon_lo lon_hi nx) as Hx.
  rewrite length_zip, concat_const_length, Hx, Hy.
  assert (Hsnd : forall (x y : list float),
    length (concat (map (fun b : float => map (fun _ : float => b) x) y))
    = (length y * length x)%nat).
  { intros x y. induction y as [|b y IH]; simpl; [reflexivity|].
    rewrite length_app, length_map, IH. reflexivity. }
  rewrite Hsnd, Hx, Hy. lia.
Qed.

Lemma filter_sublist {A : Type} (f : A -> bool) (l : list A) :
  List.filter f l `sublist_of` l.
Proof.
  induction l as [|a l IH]; simpl; [constructor|].
  destruct (f a); [apply sublist_skip | apply sublist_cons]; exact IH.
Qed.

Lemma filter_all {A : Type} (f : A -> bool) (l : list A) :
  (forall a, f a = true) -> List.filter f l = l.
Proof.
  intros Hf. induction l as [|a l IH]; simpl; [reflexivity|]. rewrite Hf, IH. reflexivity.
Qed.

Section SamplerMore.
Context {P : Type} `{Shapely P}.

Lemma candidates_nonempty_ring (polygon_obj : P) (ny nx : nat) (v : float * float)
    (vs : list (float * float)) :
  exterior_coords polygon_obj = v :: vs ->
  exists cand, candidates polygon_obj ny nx = Ok cand /\ length cand = (nx * ny)%nat.
Proof.
  intros Hring.
  exists (lattice (foldl Np.fmin v.1 (map fst vs)) (foldl Np.fmax v.1 (map fst vs))
                  (foldl Np.fmin v.2 (map snd vs)) (foldl Np.fmax v.2 (map snd vs)) ny nx).
  split; [|apply lattice_length].
  apply candidates_lattice; rewrite Hring; reflexivity.
Qed.

(** For counts [ny], [nx] that are not negative, the sampler fails only on
    a polygon without exterior coordinates, with the [ValueError] of
    [np.min] on an empty array. On any other polygon it returns two arrays
    of one length, a selection of the [nx * ny] candidate points in their
    order: at most [nx * ny] points, all of them when the containment test
    accepts every candidate, none when it accepts no candidate. *)
Theorem sample_edge_cases (polygon_obj : P) (ny nx : nat) :
  match exterior_coords polygon_obj with
  | [] =>
      _sample_coords_within_polygon polygon_obj ny nx
      = Raise (ValueError "zero-size array to reduction operation minimum which has no identity")
  | _ :: _ =>
      exists lats lons cand,
        candidates polygon_obj ny nx = Ok cand
        /\ length cand = (nx * ny)%nat
        /\ _sample_coords_within_polygon polygon_obj ny nx = Ok (lats, lons)
        /\ length lats = length lons
        /\ zip lats lons `sublist_of` cand
        /\ (length lats <= nx * ny)%nat
        /\ (forallb (contains polygon_obj) cand = true -> zip lats lons = cand)
        /\ (forallb (fun c => negb (contains polygon_obj c)) cand = true <-> lats = [])
  end.
Proof.
  destruct (exterior_coords polygon_obj) as [|v vs] eqn:Hring.
  - unfold _sample_coords_within_polygon. rewrite Hring. reflexivity.
  - destruct (candidates_nonempty_ring polygon_obj ny nx v vs Hring) as (cand & Hc & Hlen).
    exists (map fst (List.filter (contains polygon_obj) cand)),
           (map snd (List.filter (contains polygon_obj) cand)), cand.
    split; [exact Hc|]. split; [exact Hlen|].
    split; [rewrite sample_of_candidates, Hc; reflexivity|].
    rewrite zip_fst_snd, !length_map.
    split; [reflexivity|]. split; [apply filter_sublist|].
    split; [rewrite <- Hlen; apply filter_length_le|]. split.
    + intros Hall. rewrite forallb_forall in Hall.
      clear Hc Hlen. induction cand as [|c cand IH]; [reflexivity|]. simpl.
      rewrite (Hall c (or_introl eq_refl)). f_equal.
      apply IH. intros x Hx. apply Hall. right. exact Hx.
    + rewrite <- filter_none. split.
      * intros ->. reflexivity.
      * destruct (List.filter (contains polygon_obj) cand); [reflexivity | discriminate].
Qed.

End SamplerMore.

(** * Further properties of the correction *)

Section CorrectorLength.
Context {T : Type} `{Arith T}.

(** On arrays of one length the correction returns arrays of that length. *)
Lemma correct_length (sample_lats ve vn : list T) :
  length sample_lats = length ve -> length ve = length vn ->
  length (correct sample_lats ve vn).1 = length ve
  /\ length (correct sample_lats ve vn).2 = length ve.
Proof.
  intros H1 H2. unfold correct. cbn [fst snd].
  rewrite !length_zip_with. lia.
Qed.

End CorrectorLength.


(** * The arrows handed to [quiver] *)

Section QuiverArrays.
Context {P : Type} `{Shapely P}.

(** When the Euler pole returns one East and one North velocity per sample
    point, the four arrays handed to [quiver] have one length, at most
    [qnum * qnum], the number of candidate points; they are empty exactly
    when the containment test accepts none of the candidate points. *)
Theorem quiver_arrays_aligned (np_cos_deg : float -> float)
    (get_velocity_enu : list float -> list float -> list float * list float)
    (plate_boundary : P) (qnum : nat) (lons lats ve vn : list float) :
  (forall la lo, length la = length lo ->
     length (get_velocity_enu la lo).1 = length la
     /\ length (get_velocity_enu la lo).2 = length la) ->
  quiver_arrays np_cos_deg get_velocity_enu plate_boundary qnum = Ok (lons, lats, ve, vn) ->
  exists cand,
    candidates plate_boundary qnum qnum = Ok cand
    /\ length cand = (qnum * qnum)%nat
    /\ length lons = length lats /\ length ve = length lats /\ length vn = length lats
    /\ (length lats <= qnum * qnum)%nat
    /\ (lats = [] <-> forallb (fun c => negb (contains plate_boundary c)) cand = true).
Proof.
  intros Hvel. unfold quiver_arrays. intros Hq.
  apply bind_Ok in Hq. destruct Hq as ([slats slons] & Hs & Hq).
  rewrite sample_of_candidates in Hs.
  apply bind_Ok in Hs. destruct Hs as (cand & Hc & Hs). injection Hs as <- <-.
  assert (Hcl : length cand = (qnum * qnum)%nat).
  { destruct (exterior_coords plate_boundary) as [|v vs] eqn:Hring.
    - unfold candidates in Hc. rewrite Hring in Hc. discriminate Hc.
    - destruct (candidates_nonempty_ring plate_boundary qnum qnum v vs Hring)
        as (cand' & Hc' & Hlen').
      rewrite Hc in Hc'. injection Hc' as <-. exact Hlen'. }
  exists cand. split; [exact Hc|]. split; [exact Hcl|].
  set (kept := List.filter (contains plate_boundary) cand) in *.
  assert (Hlen : length (map fst kept) = length (map snd kept))
    by (rewrite !length_map; reflexivity).
  destruct (Hvel _ _ Hlen) as [Hve Hvn].
  destruct (get_velocity_enu (map fst kept) (map snd kept)) as [ve0 vn0].
  cbn [fst snd] in Hve, Hvn.
  pose proof (@correct_length float (float_arith np_cos_deg) (map fst kept)
                (map (fun v => PrimFloat.mul v 1000%float) ve0)
                (map (fun v => PrimFloat.mul v 1000%float) vn0)) as Hcor.
  rewrite !length_map in Hcor. rewrite !length_map in Hve, Hvn.
  destruct Hcor as [Hc1 Hc2]; [congruence | congruence |].
  destruct (@correct float (float_arith np_cos_deg) (map fst kept)
              (map (fun v => PrimFloat.mul v 1000%float) ve0)
              (map (fun v => PrimFloat.mul v 1000%float) vn0)) as [ve1 vn1].
  cbn [fst snd] in Hc1, Hc2. injection Hq as <- <- <- <-.
  rewrite !length_map.
  split; [reflexivity|]. split; [congruence|]. split; [congruence|].
  split; [rewrite <- Hcl; apply filter_length_le|].
  rewrite <- filter_none. fold kept. split.
  - destruct kept; [reflexivity | discriminate].
  - intros ->. reflexivity.
Qed.

End QuiverArrays.

Lemma quiver_arrays_aligned_witness :
  exists cand,
    @candidates _ ring_shapely (mkRing square) 1 1 = Ok cand
    /\ length cand = (1 * 1)%nat
    /\ length (@nil float) = length (@nil float)
    /\ length (@nil float) = length (@nil float)
    /\ length (@nil float) = length (@nil float)
    /\ (length (@nil float) <= 1 * 1)%nat
    /\ (@nil float = [] <-> forallb (fun c => negb (even_odd (mkRing square) c)) cand = true).
Proof.
  apply (@quiver_arrays_aligned _ ring_shapely (fun _ => 1%float)
           (fun la lo : list float =>
              (map (fun _ => 0.5%float) la, map (fun _ => 0.25%float) la))
           (mkRing square) 1 [] [] [] []).
  - intros la lo _. cbn [fst snd]. rewrite !length_map. split; reflexivity.
  - vm_compute. reflexivity.
Defined.

(** On the square with three samples per axis and an Euler pole that
    returns 0.5 m/yr East and 0.25 m/yr North everywhere, one arrow is
    drawn, at (5, 5), of 500 and 250 mm/yr; with one sample per axis the
    only candidate is a corner and no arrow is drawn. *)
Example quiver_arrays_square :
  let steady := fun la lo : list float =>
    (map (fun _ => 0.5%float) la, map (fun _ => 0.25%float) la) in
  @quiver_arrays _ ring_shapely (fun _ => 1%float) steady (mkRing square) 3
  = Ok ([5%float], [5%float], [500%float], [250%float])
  /\ @quiver_arrays _ ring_shapely (fun _ => 1%float) steady (mkRing square) 1
     = Ok ([], [], [], []).
Proof. split; vm_compute; reflexivity. Qed.

(** * Reading back a header *)

Lemma split_on_from_absent (sep s : string) :
  Str.contains s sep = false -> Str.split_on_from sep s 0 = [s].
Proof.
  induction s as [|c s IH]; [reflexivity|].
  rewrite contains_step. intros Hc. apply orb_false_elim in Hc. destruct Hc as [Hp Hc].
  rewrite split_on_from_step, Hp, (IH Hc). reflexivity.
Qed.

Lemma split_on_from_newline (a : string) :
  Str.contains a Str.nl = false ->
  Str.split_on_from Str.nl (a +:+ Str.nl) 0 = [a; EmptyString].
Proof.
  induction a as [|c a IH].
  - intros _. reflexivity.
  - rewrite contains_step. intros Hc. apply orb_false_elim in Hc. destruct Hc as [Hp Hc].
    change (String c a +:+ Str.nl) with (String c (a +:+ Str.nl)).
    rewrite split_on_from_step, (IH Hc).
    unfold Str.nl in *. rewrite prefix_cons in *.
    destruct (ascii_dec "010" c); [|reflexivity].
    rewrite prefix_empty in Hp. discriminate.
Qed.

Lemma endswith_newline (a : string) : Str.endswith (a +:+ Str.nl) Str.nl = true.
Proof.
  unfold Str.endswith.
  assert (Hlen : String.length (a +:+ Str.nl) = S (String.length a)).
  { induction a as [|c a IH]; [reflexivity|].
    change (String c a +:+ Str.nl) with (String c (a +:+ Str.nl)).
    change (String.length (String c (a +:+ Str.nl))) with (S (String.length (a +:+ Str.nl))).
    rewrite IH. reflexivity. }
  rewrite Hlen. change (String.length Str.nl) with 1%nat.
  replace (S (String.length a) - 1)%nat with (String.length a) by lia.
  clear Hlen.
  assert (Hsub : substring (String.length a) 1 (a +:+ Str.nl) = Str.nl).
  { induction a as [|c a IH]; [reflexivity|]. exact IH. }
  rewrite Hsub. reflexivity.
Qed.

Lemma contains_mark_newline (m : ascii) (a : string) :
  m <> "010"%char ->
  Str.contains a (String m " ") = false ->
  Str.contains (a +:+ Str.nl) (String m " ") = false.
Proof.
  intros Hm. induction a as [|c a IH].
  - intros _. change (EmptyString +:+ Str.nl) with Str.nl. unfold Str.nl.
    rewrite contains_step, prefix_cons.
    destruct (ascii_dec m "010"); [contradiction | reflexivity].
  - rewrite contains_step. intros Hc. apply orb_false_elim in Hc. destruct Hc as [Hp Hc].
    change (String c a +:+ Str.nl) with (String c (a +:+ Str.nl)).
    rewrite contains_step, (IH Hc), orb_false_r.
    rewrite prefix_cons in *. destruct (ascii_dec m c); [|reflexivity].
    destruct a as [|d a].
    + change (EmptyString +:+ Str.nl) with Str.nl. unfold Str.nl. rewrite prefix_cons.
      destruct (ascii_dec " " "010"); [discriminate | reflexivity].
    + change (String d a +:+ Str.nl) with (String d (a +:+ Str.nl)).
      rewrite prefix_cons in *. destruct (ascii_dec " " d); [|reflexivity].
      rewrite prefix_empty in Hp. discriminate.
Qed.

Lemma header_key_after_mark (m : ascii) (a : string) :
  m <> "010"%char ->
  Str.contains a Str.nl = false -> Str.contains a (String m " ") = false ->
  (k ← index (Str.split_on (String m " ") (String m (String " " (a +:+ Str.nl)))) 1;
   if Str.endswith k Str.nl then index (Str.split_on Str.nl k) 0 else Ok k) = Ok a.
Proof.
  intros Hm Hnl Hmark. unfold Str.split_on.
  rewrite split_on_from_step, prefix_cons.
  destruct (ascii_dec m m); [|contradiction].
  rewrite prefix_cons. destruct (ascii_dec " " " "); [|contradiction].
  rewrite prefix_empty. cbn [String.length Nat.sub].
  rewrite split_on_from_step.
  rewrite (split_on_from_absent _ _ (contains_mark_newline m a Hm Hmark)).
  cbn [index lookup list_lookup mbind result_bind bind].
  rewrite endswith_newline, (split_on_from_newline a Hnl). reflexivity.
Qed.

(** The abbreviation written in a header is read back unchanged, for the
    three header forms: after the mark [> ], after the mark [# ], and as a
    bare line (where leading and trailing blanks stay part of it). The
    abbreviation must hold no newline and not the mark that introduces it. *)
Theorem header_key_reads_back (a : string) :
  Str.contains a Str.nl = false ->
  (Str.contains a "> " = false -> header_key ("> " +:+ a +:+ Str.nl) = Ok a)
  /\ (Str.contains a "# " = false -> header_key ("# " +:+ a +:+ Str.nl) = Ok a)
  /\ (Str.startswith a "> " = false -> Str.startswith a "# " = false ->
      header_key (a +:+ Str.nl) = Ok a).
Proof.
  intros Hnl. split; [|split].
  - intros Hmark. unfold header_key, Str.startswith.
    change ("> " +:+ a +:+ Str.nl) with (String ">" (String " " (a +:+ Str.nl))).
    rewrite prefix_cons. destruct (ascii_dec ">" ">"); [|contradiction].
    rewrite prefix_cons. destruct (ascii_dec " " " "); [|contradiction].
    rewrite prefix_empty.
    apply (header_key_after_mark ">"%char a); [discriminate | exact Hnl | exact Hmark].
  - intros Hmark. unfold header_key, Str.startswith.
    change ("# " +:+ a +:+ Str.nl) with (String "#" (String " " (a +:+ Str.nl))).
    rewrite (prefix_cons ">" "#"). destruct (ascii_dec ">" "#"); [discriminate|].
    rewrite prefix_cons. destruct (ascii_dec "#" "#"); [|contradiction].
    rewrite prefix_cons. destruct (ascii_dec " " " "); [|contradiction].
    rewrite prefix_empty.
    apply (header_key_after_mark "#"%char a); [discriminate | exact Hnl | exact Hmark].
  - unfold header_key, Str.startswith. intros Hgt Hsh.
    assert (Hpre : forall m : ascii, m <> "010"%char ->
      String.prefix (String m " ") a = false ->
      String.prefix (String m " ") (a +:+ Str.nl) = false).
    { intros m Hm Hp. destruct a as [|c [|d a]].
      - unfold Str.nl. change (EmptyString +:+ String "010" EmptyString)
          with (String "010" EmptyString).
        rewrite prefix_cons. destruct (ascii_dec m "010"); [contradiction | reflexivity].
      - change (String c EmptyString +:+ Str.nl) with (String c Str.nl). unfold Str.nl.
        rewrite !prefix_cons. destruct (ascii_dec m c); [|reflexivity].
        destruct (ascii_dec " " "010"); [discriminate | reflexivity].
      - change (String c (String d a) +:+ Str.nl) with (String c (String d (a +:+ Str.nl))).
        rewrite !prefix_cons in *. destruct (ascii_dec m c); [|reflexivity].
        destruct (ascii_dec " " d); [|reflexivity].
        rewrite prefix_empty in Hp. discriminate. }
    rewrite (Hpre ">"%char ltac:(discriminate) Hgt), (Hpre "#"%char ltac:(discriminate) Hsh).
    cbn [mbind result_bind bind].
    rewrite endswith_newline. unfold Str.split_on.
    rewrite (split_on_from_newline a Hnl). reflexivity.
Qed.

Lemma header_key_reads_back_witness :
  (Str.contains "AR" "> " = false -> header_key ("> " +:+ "AR" +:+ Str.nl) = Ok "AR")
  /\ (Str.contains "AR" "# " = false -> header_key ("# " +:+ "AR" +:+ Str.nl) = Ok "AR")
  /\ (Str.startswith "AR" "> " = false -> Str.startswith "AR" "# " = false ->
      header_key ("AR" +:+ Str.nl) = Ok "AR").
Proof.
  apply (header_key_reads_back "AR"). reflexivity.
Defined.

(** * The plot settings *)

Lemma defaults_keep (ds : list (string * pyval)) (kwargs : gmap string pyval)
    (k : string) (v : pyval) :
  kwargs !! k = Some v -> foldl set_default kwargs ds !! k = Some v.
Proof.
  revert kwargs. induction ds as [|[k0 d0] ds IH]; intros kwargs Hk; [exact Hk|].
  cbn [foldl]. apply IH. unfold set_default. cbn [fst snd].
  destruct (decide (k0 = k)) as [->|Hne].
  - rewrite lookup_insert_eq, Hk. reflexivity.
  - rewrite lookup_insert_ne by exact Hne. exact Hk.
Qed.

Lemma defaults_fill (ds : list (string * pyval)) (kwargs : gmap string pyval)
    (k : string) (d : pyval) :
  NoDup ds.*1 -> (k, d) ∈ ds -> kwargs !! k = None ->
  foldl set_default kwargs ds !! k = Some d.
Proof.
  revert kwargs. induction ds as [|[k0 d0] ds IH]; intros kwargs Hnd Hin Hk.
  - inversion Hin.
  - rewrite fmap_cons, NoDup_cons in Hnd. destruct Hnd as [Hfresh Hnd]. cbn [foldl].
    apply elem_of_cons in Hin. destruct Hin as [[= -> ->]|Hin].
    + apply defaults_keep. unfold set_default. cbn [fst snd].
      rewrite lookup_insert_eq, Hk. reflexivity.
    + apply (IH _ Hnd Hin). unfold set_default. cbn [fst snd].
      rewrite lookup_insert_ne; [exact Hk|].
      intros ->. apply Hfresh. apply list_elem_of_fmap. exists (k, d). split; [reflexivity | exact Hin].
Qed.

Lemma defaults_other (ds : list (string * pyval)) (kwargs : gmap string pyval) (k : string) :
  k ∉ ds.*1 -> kwargs !! k = None -> foldl set_default kwargs ds !! k = None.
Proof.
  revert kwargs. induction ds as [|[k0 d0] ds IH]; intros kwargs Hout Hk; [exact Hk|].
  rewrite fmap_cons, not_elem_of_cons in Hout. destruct Hout as [Hne Hout]. cbn [foldl].
  apply (IH _ Hout). unfold set_default. cbn [fst snd] in *.
  rewrite lookup_insert_ne by congruence. exact Hk.
Qed.

Lemma PLOT_DEFAULTS_distinct : NoDup PLOT_DEFAULTS.*1.
Proof. apply (bool_decide_unpack _). vm_compute. reflexivity. Qed.

(** The settings keep every entry the caller passed, whatever its key and
    value, give each of the seventeen keys that the caller left out its
    default, add no other key, and are not changed by a second pass. *)
Theorem plot_settings_defaults (kwargs : gmap string pyval) :
  (forall k v, kwargs !! k = Some v -> plot_settings kwargs !! k = Some v)
  /\ (forall k d, (k, d) ∈ PLOT_DEFAULTS -> kwargs !! k = None ->
        plot_settings kwargs !! k = Some d)
  /\ (forall k, k ∉ PLOT_DEFAULTS.*1 -> kwargs !! k = None ->
        plot_settings kwargs !! k = None)
  /\ plot_settings (plot_settings kwargs) = plot_settings kwargs.
Proof.
  split; [intros k v; apply defaults_keep|].
  split; [intros k d; apply defaults_fill, PLOT_DEFAULTS_distinct|].
  split; [intros k; apply defaults_other|].
  apply map_eq. intros k.
  destruct (plot_settings kwargs !! k) as [v|] eqn:E.
  - apply defaults_keep, E.
  - destruct (kwargs !! k) as [v|] eqn:Ek.
    { unfold plot_settings in E. rewrite (defaults_keep _ _ _ _ Ek) in E. discriminate. }
    destruct (decide (k ∈ PLOT_DEFAULTS.*1)) as [Hin|Hout].
    + apply list_elem_of_fmap in Hin. destruct Hin as ([k' d] & -> & Hin).
      cbn [fst] in *. unfold plot_settings in E.
      rewrite (defaults_fill _ _ _ _ PLOT_DEFAULTS_distinct Hin Ek) in E. discriminate.
    + apply defaults_other; [exact Hout | exact E].
Qed.
